(** * llm-unified-client: a shallow embedding of the client factory, the
      request and history builders and the provider adapters

    The Go package [llm] offers one [Client] contract over several remote
    chat and embedding APIs.  This development embeds

    - the data model of [types.go] (messages, requests, configuration),
    - the builders and the chat-history container of [client.go],
    - the adapters of [openai_client.go], [qwen_client.go] (both the legacy
      prompt variant and the OpenAI-compatible variant), [azure_client.go]
      and [cohere_client.go], and
    - the factory [NewClient],

    and states the properties of the specification over these definitions.

    Conventions.  Go's [int] is a 64-bit integer, embedded as [Z] (wrap-around
    is written out where the code adds); [float64] is the kernel's binary64
    float; [string] is a byte string.  A pointer-to-primitive field
    ([*float64], [*int], [*string]) is an [option].  A
    [map[string]interface{}] is a finite map from strings to dynamically
    typed values.  Everything the adapters obtain from outside the package
    (JSON encoding and decoding, the HTTP round trip, the clock) is gathered
    in one environment record [Env]; the requests handed to the HTTP client
    are recorded so that "no network call" is a statement about a trace. *)

From Stdlib Require Import ZArith PrimFloat Ascii.
From stdpp Require Import gmap strings list fin_maps pretty.

Local Open Scope Z_scope.

(* ===================================================================== *)
(** * Data model ([types.go]) *)
(* ===================================================================== *)

Definition float64 := PrimFloat.float.

(** Go's [int] on the 64-bit targets: two's complement wrap-around. *)
Definition wrap64 (z : Z) : Z := (z + 2 ^ 63) mod 2 ^ 64 - 2 ^ 63.

(** [interface{}] values as they occur in payloads and in [ExtraParams]. *)
Inductive value :=
| VNil
| VBool (b : bool)
| VInt (n : Z)
| VFloat (f : float64)
| VString (s : string)
| VList (l : list value)
| VMap (m : gmap string value).

(** [type Provider string] *)
Definition ProviderName := string.
Definition ProviderOpenAI : ProviderName := "openai".
Definition ProviderDeepSeek : ProviderName := "deepseek".
Definition ProviderQwen : ProviderName := "qwen".
Definition ProviderAzure : ProviderName := "azure".
(** Declared by the release notes ([ProviderCohere Provider = "cohere"]) and
    used by [embedding_test.go]. *)
Definition ProviderCohere : ProviderName := "cohere".

(** [type MessageRole string] *)
Definition MessageRole := string.
Definition RoleSystem : MessageRole := "system".
Definition RoleUser : MessageRole := "user".
Definition RoleAssistant : MessageRole := "assistant".
Definition RoleFunction : MessageRole := "function".

Record Message := mkMessage {
  Role : MessageRole;
  Content : string;
  Name : string
}.

Record ChatHistory := mkChatHistory {
  hist_Messages : list Message
}.

Record Request := mkRequest {
  Messages : list Message;
  SystemPrompt : string;
  Temperature : option float64;
  MaxTokens : option Z;
  TopP : option float64;
  TopK : option Z;
  Stream : bool;
  ExtraParams : gmap string value;
  Model : option string
}.

Record Response := mkResponse {
  resp_Content : string;
  resp_Role : MessageRole;
  resp_TokensUsed : Z;
  resp_ResponseTime : Z;
  resp_FinishReason : string
}.

Record EmbeddingRequest := mkEmbeddingRequest {
  emb_Input : list string;
  emb_Model : option string
}.

Record EmbeddingResponse := mkEmbeddingResponse {
  Embeddings : list (list float64);
  emb_resp_Model : string;
  emb_resp_TokensUsed : Z;
  emb_resp_ResponseTime : Z
}.

Record Config := mkConfig {
  Provider : ProviderName;
  APIKey : string;
  BaseURL : string;
  Timeout : Z;
  DefaultModel : string;
  DefaultTemperature : option float64;
  DefaultMaxTokens : option Z;
  DefaultTopP : option float64;
  DefaultTopK : option Z;
  ExtraConfig : gmap string value
}.

Definition with_BaseURL (u : string) (c : Config) : Config :=
  mkConfig (Provider c) (APIKey c) u (Timeout c) (DefaultModel c)
    (DefaultTemperature c) (DefaultMaxTokens c) (DefaultTopP c)
    (DefaultTopK c) (ExtraConfig c).

Definition with_Timeout (t : Z) (c : Config) : Config :=
  mkConfig (Provider c) (APIKey c) (BaseURL c) t (DefaultModel c)
    (DefaultTemperature c) (DefaultMaxTokens c) (DefaultTopP c)
    (DefaultTopK c) (ExtraConfig c).

Definition with_DefaultModel (m : string) (c : Config) : Config :=
  mkConfig (Provider c) (APIKey c) (BaseURL c) (Timeout c) m
    (DefaultTemperature c) (DefaultMaxTokens c) (DefaultTopP c)
    (DefaultTopK c) (ExtraConfig c).

(** [time.Second], in nanoseconds. *)
Definition time_Second : Z := 1000000000.

(* ===================================================================== *)
(** * Errors *)
(* ===================================================================== *)

(** The package reports every failure with [fmt.Errorf]; one constructor per
    format string.  [%w] causes come from the standard library and are kept
    as their text. *)
Inductive error :=
| ErrAPIKeyRequired
| ErrAzureBaseURLRequired
| ErrAzureDeploymentMissing
| ErrUnsupportedProvider (p : ProviderName)
| ErrEmbeddingsNotSupported (provider : string)
| ErrMarshal (what cause : string)
| ErrCreateRequest (what cause : string)
| ErrSend (what cause : string)
| ErrRead (what cause : string)
| ErrAPI (api : string) (status : Z) (body : string)
| ErrUnmarshal (what cause : string)
| ErrNoChoices (msg : string)
| ErrNoEmbeddings
| ErrEmbeddingIndex (index : Z).

(** [err.Error()] *)
Definition Error (e : error) : string :=
  match e with
  | ErrAPIKeyRequired => "API key is required"
  | ErrAzureBaseURLRequired => "base URL is required for Azure OpenAI"
  | ErrAzureDeploymentMissing =>
      "Azure OpenAI URL must include deployment name: /deployments/<deployment-name>"
  | ErrUnsupportedProvider p => "unsupported LLM provider: " +:+ p
  | ErrEmbeddingsNotSupported provider =>
      "embeddings not supported for " +:+ provider +:+ " provider yet"
  | ErrMarshal what cause => "failed to marshal " +:+ what +:+ ": " +:+ cause
  | ErrCreateRequest what cause => "failed to create " +:+ what +:+ ": " +:+ cause
  | ErrSend what cause => "failed to send " +:+ what +:+ ": " +:+ cause
  | ErrRead what cause => "failed to read " +:+ what +:+ ": " +:+ cause
  | ErrAPI api status body => api +:+ " error " +:+ pretty status +:+ ": " +:+ body
  | ErrUnmarshal what cause => "failed to unmarshal " +:+ what +:+ ": " +:+ cause
  | ErrNoChoices msg => msg
  | ErrNoEmbeddings => "no embeddings in response"
  | ErrEmbeddingIndex index => "invalid embedding index " +:+ pretty index
  end.

(** The error taxonomy of the specification.  The Go code has no error
    types; the kind of an error is read off the site that produced it.
    Failures to encode the payload or to build the HTTP request object are
    not listed by the taxonomy and are kept apart. *)
Inductive ErrorKind :=
| ConfigurationError
| UnsupportedProviderError
| UnsupportedOperationError
| TransportError
| RemoteAPIError
| DecodeError
| EmptyResultError
| RequestConstructionError.

Definition kind (e : error) : ErrorKind :=
  match e with
  | ErrAPIKeyRequired | ErrAzureBaseURLRequired | ErrAzureDeploymentMissing =>
      ConfigurationError
  | ErrUnsupportedProvider _ => UnsupportedProviderError
  | ErrEmbeddingsNotSupported _ => UnsupportedOperationError
  | ErrMarshal _ _ | ErrCreateRequest _ _ => RequestConstructionError
  | ErrSend _ _ | ErrRead _ _ => TransportError
  | ErrAPI _ _ _ => RemoteAPIError
  | ErrUnmarshal _ _ | ErrEmbeddingIndex _ => DecodeError
  | ErrNoChoices _ | ErrNoEmbeddings => EmptyResultError
  end.

(** A Go result pair [(T, error)]. *)
Inductive result (A : Type) :=
| Ok (a : A)
| Err (e : error).
Arguments Ok {A} a.
Arguments Err {A} e.

Definition is_Err {A} (r : result A) : Prop :=
  match r with Ok _ => False | Err _ => True end.

Definition fails_with {A} (k : ErrorKind) (r : result A) : Prop :=
  match r with Ok _ => False | Err e => kind e = k end.

(* ===================================================================== *)
(** * Request builders and chat history ([client.go]) *)
(* ===================================================================== *)

Definition emptyRequest : Request :=
  mkRequest [] "" None None None None false ∅ None.

Definition with_Messages (ms : list Message) (r : Request) : Request :=
  mkRequest ms (SystemPrompt r) (Temperature r) (MaxTokens r) (TopP r)
    (TopK r) (Stream r) (ExtraParams r) (Model r).

Definition BuildSimpleRequest (message : string) : Request :=
  with_Messages [mkMessage RoleUser message ""] emptyRequest.

Definition BuildChatRequest (history : list Message) (userMessage : string)
  : Request :=
  let messages := [] in
  let messages := messages ++ history in
  let messages := messages ++ [mkMessage RoleUser userMessage ""] in
  with_Messages messages emptyRequest.

Definition BuildRequestWithSystemPrompt (systemPrompt userMessage : string)
  : Request :=
  with_Messages
    [mkMessage RoleSystem systemPrompt ""; mkMessage RoleUser userMessage ""]
    emptyRequest.

Definition AddSystemMessage (content : string) (r : Request) : Request :=
  with_Messages ([mkMessage RoleSystem content ""] ++ Messages r) r.

Definition AddUserMessage (content : string) (r : Request) : Request :=
  with_Messages (Messages r ++ [mkMessage RoleUser content ""]) r.

Definition AddAssistantMessage (content : string) (r : Request) : Request :=
  with_Messages (Messages r ++ [mkMessage RoleAssistant content ""]) r.

Definition SetTemperature (temp : float64) (r : Request) : Request :=
  mkRequest (Messages r) (SystemPrompt r) (Some temp) (MaxTokens r) (TopP r)
    (TopK r) (Stream r) (ExtraParams r) (Model r).

Definition SetMaxTokens (tokens : Z) (r : Request) : Request :=
  mkRequest (Messages r) (SystemPrompt r) (Temperature r) (Some tokens)
    (TopP r) (TopK r) (Stream r) (ExtraParams r) (Model r).

Definition SetTopP (topP : float64) (r : Request) : Request :=
  mkRequest (Messages r) (SystemPrompt r) (Temperature r) (MaxTokens r)
    (Some topP) (TopK r) (Stream r) (ExtraParams r) (Model r).

Definition SetTopK (topK : Z) (r : Request) : Request :=
  mkRequest (Messages r) (SystemPrompt r) (Temperature r) (MaxTokens r)
    (TopP r) (Some topK) (Stream r) (ExtraParams r) (Model r).

Definition SetModel (model : string) (r : Request) : Request :=
  mkRequest (Messages r) (SystemPrompt r) (Temperature r) (MaxTokens r)
    (TopP r) (TopK r) (Stream r) (ExtraParams r) (Some model).

Definition SetStreaming (stream : bool) (r : Request) : Request :=
  mkRequest (Messages r) (SystemPrompt r) (Temperature r) (MaxTokens r)
    (TopP r) (TopK r) stream (ExtraParams r) (Model r).

Definition with_ExtraParams (extra : gmap string value) (r : Request)
  : Request :=
  mkRequest (Messages r) (SystemPrompt r) (Temperature r) (MaxTokens r)
    (TopP r) (TopK r) (Stream r) extra (Model r).

(** ** ChatHistory methods.  The receiver is a pointer; the embedding
    returns the history after the call. *)

Definition AddMessage (role : MessageRole) (content : string)
    (h : ChatHistory) : ChatHistory :=
  mkChatHistory (hist_Messages h ++ [mkMessage role content ""]).

Definition History_AddSystemMessage (content : string) (h : ChatHistory) :=
  AddMessage RoleSystem content h.

Definition History_AddUserMessage (content : string) (h : ChatHistory) :=
  AddMessage RoleUser content h.

Definition History_AddAssistantMessage (content : string) (h : ChatHistory) :=
  AddMessage RoleAssistant content h.

Definition GetMessages (h : ChatHistory) : list Message := hist_Messages h.

Definition Clear (h : ChatHistory) : ChatHistory := mkChatHistory [].

Definition GetLastMessage (h : ChatHistory) : option Message :=
  if decide (length (hist_Messages h) = 0%nat) then None
  else hist_Messages h !! (length (hist_Messages h) - 1)%nat.

(** The slice expression [s[low:]]: a run-time panic ([None]) unless
    [0 <= low <= len(s)]. *)
Definition slice_from {A} (s : list A) (low : Z) : option (list A) :=
  if decide (0 <= low <= Z.of_nat (length s)) then Some (drop (Z.to_nat low) s)
  else None.

(** [Truncate]: [None] is the run-time panic of the slice expression. *)
Definition Truncate (n : Z) (h : ChatHistory) : option ChatHistory :=
  let len := Z.of_nat (length (hist_Messages h)) in
  if decide (len > n) then
    mkChatHistory <$> slice_from (hist_Messages h) (len - n)
  else Some h.

(* ===================================================================== *)
(** * The environment of an adapter call *)
(* ===================================================================== *)

(** What is handed to [http.Client.Do]: method, URL, the headers in the
    order they are set, the encoded body. *)
Record HttpRequest := mkHttpRequest {
  http_Method : string;
  http_URL : string;
  http_Header : list (string * string);
  http_Body : string
}.

(** The three ways a round trip ends: [Do] fails (network failure,
    cancelled or expired context, client timeout), reading the body fails,
    or a status and a body arrive. *)
Inductive HttpOutcome :=
| DoFailed (cause : string)
| BodyUnreadable (status : Z) (cause : string)
| Replied (status : Z) (body : string).

(** A standard-library call that either yields a value or an error text. *)
Inductive outcome (A : Type) :=
| Done (a : A)
| Failed (cause : string).
Arguments Done {A} a.
Arguments Failed {A} cause.

(** The anonymous structs the response bodies are decoded into (only the
    fields the adapters read). *)
Record ChatChoice := mkChatChoice {
  choice_Role : string;
  choice_Content : string;
  choice_FinishReason : string
}.

Record ChatCompletion := mkChatCompletion {
  Choices : list ChatChoice;
  Usage_TotalTokens : Z
}.

Record QwenGeneration := mkQwenGeneration {
  Output_Text : string;
  qwen_TotalTokens : Z
}.

Record CohereChat := mkCohereChat {
  chat_Text : string;
  chat_InputTokens : Z;
  chat_OutputTokens : Z;
  chat_FinishReason : string
}.

Record CohereEmbed := mkCohereEmbed {
  embed_Embeddings : list (list float64);
  embed_ID : string;
  embed_InputTokens : Z
}.

(** Modelled from the spec: the shape the OpenAI embedding reply is decoded
    into ([data[].embedding] with its index, [usage.total_tokens]); the
    decoding code is missing from [openai_client.go] as given. *)
Record EmbeddingDatum := mkEmbeddingDatum {
  datum_Index : Z;
  datum_Embedding : list float64
}.

Record OpenAIEmbed := mkOpenAIEmbed {
  embed_Data : list EmbeddingDatum;
  embed_TotalTokens : Z
}.

(** [json.Marshal], [http.NewRequestWithContext], [http.Client.Do] followed
    by [io.ReadAll], [json.Unmarshal] at each of the response shapes, and
    [time.Since(startTime)].  The context of the call is part of the
    environment: its cancellation shows as [DoFailed]. *)
Record Env := mkEnv {
  json_Marshal : gmap string value -> outcome string;
  http_NewRequest : string -> string -> option string;
  http_Do : HttpRequest -> HttpOutcome;
  json_Unmarshal_ChatCompletion : string -> outcome ChatCompletion;
  json_Unmarshal_QwenGeneration : string -> outcome QwenGeneration;
  json_Unmarshal_CohereChat : string -> outcome CohereChat;
  json_Unmarshal_CohereEmbed : string -> outcome CohereEmbed;
  json_Unmarshal_OpenAIEmbed : string -> outcome OpenAIEmbed;
  time_Since : Z
}.

(** [http.Client{Timeout: ...}] *)
Record http_Client := mkHttpClient {
  client_Timeout : Z
}.

(** A call of an adapter method: the requests it handed to the HTTP
    client, in order, and its Go result pair. *)
Definition Call (A : Type) : Type := list HttpRequest * result A.

Definition sent {A} (c : Call A) : list HttpRequest := fst c.
Definition returned {A} (c : Call A) : result A := snd c.

#[global] Instance Call_ret : MRet Call := λ A a, ([], Ok a).

#[global] Instance Call_bind : MBind Call := λ A B f m,
  match m with
  | (t, Ok a) => let '(t', r) := f a in (t ++ t', r)
  | (t, Err e) => (t, Err e)
  end.

Definition throw {A} (e : error) : Call A := ([], Err e).

(** An [if err != nil { return nil, fmt.Errorf(...) }] after a library call. *)
Definition try {A} (o : outcome A) (wrap : string → error) : Call A :=
  match o with
  | Done a => mret a
  | Failed cause => throw (wrap cause)
  end.

(** The round trip every [Generate] and [CreateEmbedding] repeats verbatim:
    encode the payload, build a POST request with the JSON content type and
    the adapter's headers, send it, read the body, reject a status outside
    200..299.  [noun] is "request" or "embedding request", [reply] is
    "response" or "embedding response", [api] the prefix of the status
    error. *)
Definition post (env : Env) (noun reply api url : string)
    (headers : list (string * string)) (payload : gmap string value)
  : Call string :=
  jsonPayload ← try (json_Marshal env payload) (ErrMarshal noun);
  match http_NewRequest env "POST" url with
  | Some cause => throw (ErrCreateRequest noun cause)
  | None =>
      let req :=
        mkHttpRequest "POST" url
          (("Content-Type", "application/json") :: headers) jsonPayload in
      match http_Do env req with
      | DoFailed cause => ([req], Err (ErrSend noun cause))
      | BodyUnreadable _ cause => ([req], Err (ErrRead reply cause))
      | Replied status body =>
          if decide (status < 200 ∨ status >= 300)
          then ([req], Err (ErrAPI api status body))
          else ([req], Ok body)
      end
  end.

(** [for k, v := range extra { payload[k] = v }] *)
Definition copyInto (extra payload : gmap string value) : gmap string value :=
  map_fold (λ k v acc, <[k := v]> acc) payload extra.

(** The three-way choice of the payload builders:
    [if request.X != nil { payload[key] = *request.X }
     else if c.config.DefaultX != nil { payload[key] = *c.config.DefaultX }]. *)
Definition setParam {A} (key : string) (inj : A → value)
    (override default : option A) (payload : gmap string value)
  : gmap string value :=
  match override with
  | Some v => <[key := inj v]> payload
  | None =>
      match default with
      | Some v => <[key := inj v]> payload
      | None => payload
      end
  end.

(** [strings.Contains] *)
Fixpoint strings_Contains (s substr : string) : bool :=
  if String.prefix substr s then true
  else match s with
       | EmptyString => false
       | String _ s' => strings_Contains s' substr
       end.

(** The two-byte separator ["\n\n"]. *)
Definition blank_line : string := String "010"%char (String "010"%char EmptyString).

(** [config.Timeout == 0] gets the 30 second default in every constructor. *)
Definition defaultTimeout (config : Config) : Config :=
  if decide (Timeout config = 0) then with_Timeout (30 * time_Second) config
  else config.

(** The request every [GenerateWithHistory] hands to [Generate]. *)
Definition historyRequest (history : ChatHistory)
    (userMessage systemPrompt : string) : Request :=
  let request := BuildChatRequest (GetMessages history) userMessage in
  if decide (systemPrompt ≠ "") then AddSystemMessage systemPrompt request
  else request.

(** The reading of an OpenAI-shaped chat completion. *)
Definition firstChoice (noChoices : string) (apiResp : ChatCompletion)
  : Call ChatChoice :=
  match Choices apiResp with
  | [] => throw (ErrNoChoices noChoices)
  | choice :: _ => mret choice
  end.

(* ===================================================================== *)
(** * The OpenAI-compatible adapter ([openai_client.go]) *)
(* ===================================================================== *)

Module OpenAI.

Record openAIClient := mk {
  config : Config;
  httpClient : http_Client
}.

Definition newOpenAIClient (config : Config) : result openAIClient :=
  if decide (APIKey config = "") then Err ErrAPIKeyRequired
  else
    let config :=
      if decide (BaseURL config = "") then
        if decide (Provider config = ProviderOpenAI)
        then with_BaseURL "https://api.openai.com/v1" config
        else if decide (Provider config = ProviderDeepSeek)
        then with_BaseURL "https://api.deepseek.com" config
        else with_BaseURL "https://api.openai.com/v1" config
      else config in
    let config := defaultTimeout config in
    let config :=
      if decide (DefaultModel config = "") then
        if decide (Provider config = ProviderOpenAI)
        then with_DefaultModel "gpt-3.5-turbo" config
        else if decide (Provider config = ProviderDeepSeek)
        then with_DefaultModel "deepseek-chat" config
        else with_DefaultModel "gpt-3.5-turbo" config
      else config in
    Ok (mk config (mkHttpClient (Timeout config))).

Definition getModel (c : openAIClient) (override : option string) : string :=
  match override with
  | Some m => m
  | None => DefaultModel (config c)
  end.

Definition convertMessage (msg : Message) : value :=
  let m : gmap string value :=
    {[ "role" := VString (Role msg); "content" := VString (Content msg) ]} in
  VMap (if decide (Name msg ≠ "") then <["name" := VString (Name msg)]> m
        else m).

Definition convertMessages (messages : list Message) : list value :=
  convertMessage <$> messages.

Definition buildPayload (c : openAIClient) (request : Request)
  : gmap string value :=
  let payload : gmap string value :=
    {[ "model" := VString (getModel c (Model request));
       "messages" := VList (convertMessages (Messages request));
       "stream" := VBool (Stream request) ]} in
  let payload :=
    setParam "temperature" VFloat (Temperature request)
      (DefaultTemperature (config c)) payload in
  let payload :=
    setParam "max_tokens" VInt (MaxTokens request)
      (DefaultMaxTokens (config c)) payload in
  let payload :=
    setParam "top_p" VFloat (TopP request) (DefaultTopP (config c)) payload in
  copyInto (ExtraParams request) payload.

Definition Generate (env : Env) (c : openAIClient) (request : Request)
  : Call Response :=
  let payload := buildPayload c request in
  body ← post env "request" "response" "LLM API"
            (BaseURL (config c) +:+ "/chat/completions")
            [("Authorization", "Bearer " +:+ APIKey (config c))] payload;
  apiResp ← try (json_Unmarshal_ChatCompletion env body)
                (ErrUnmarshal "response");
  choice ← firstChoice "no choices in LLM response" apiResp;
  mret (mkResponse (choice_Content choice) (choice_Role choice)
          (Usage_TotalTokens apiResp) (time_Since env)
          (choice_FinishReason choice)).

Definition GenerateWithHistory (env : Env) (c : openAIClient)
    (history : ChatHistory) (userMessage systemPrompt : string)
  : Call Response :=
  Generate env c (historyRequest history userMessage systemPrompt).

Definition Close (c : openAIClient) : option error := None.

Definition GetConfig (c : openAIClient) : Config := config c.

(** Modelled from the spec: [openAIClient.CreateEmbedding] is missing from
    [openai_client.go] as given (the change log and [embedding_test.go]
    name it).  The specification says: the input array is sent as [input];
    the parsed [data[].embedding] entries are reordered and validated by
    their index; the token count is [usage.total_tokens]; a reply with no
    embedding is an empty-result error.  The model is the request's
    override, else the configured default.  The specification does not
    name the path of the endpoint nor the texts of the errors; the
    provider's [/embeddings] and texts in the style of the Cohere mapping
    stand in for them. *)
Definition placeEmbedding (n : nat) (acc : list (list float64))
    (d : EmbeddingDatum) : result (list (list float64)) :=
  if decide (0 <= datum_Index d < Z.of_nat n) then
    Ok (<[Z.to_nat (datum_Index d) := datum_Embedding d]> acc)
  else Err (ErrEmbeddingIndex (datum_Index d)).

(** Modelled from the spec: the reordering by index of
    [openAIClient.CreateEmbedding], which is missing from
    [openai_client.go] as given; an index outside the reply is refused. *)
Fixpoint orderByIndex (n : nat) (data : list EmbeddingDatum)
    (acc : list (list float64)) : result (list (list float64)) :=
  match data with
  | [] => Ok acc
  | d :: rest =>
      match placeEmbedding n acc d with
      | Ok acc' => orderByIndex n rest acc'
      | Err e => Err e
      end
  end.

(** Modelled from the spec: [openAIClient.CreateEmbedding], missing from
    [openai_client.go] as given; see [placeEmbedding] for what the
    specification says of it. *)
Definition CreateEmbedding (env : Env) (c : openAIClient)
    (request : EmbeddingRequest) : Call EmbeddingResponse :=
  let embeddingModel := getModel c (emb_Model request) in
  let payload : gmap string value :=
    {[ "model" := VString embeddingModel;
       "input" := VList (VString <$> emb_Input request) ]} in
  body ← post env "embedding request" "embedding response"
            "OpenAI Embedding API" (BaseURL (config c) +:+ "/embeddings")
            [("Authorization", "Bearer " +:+ APIKey (config c))] payload;
  apiResp ← try (json_Unmarshal_OpenAIEmbed env body)
                (ErrUnmarshal "embedding response");
  match embed_Data apiResp with
  | [] => throw ErrNoEmbeddings
  | data =>
      match orderByIndex (length data) data (replicate (length data) []) with
      | Err e => throw e
      | Ok embeddings =>
          mret (mkEmbeddingResponse embeddings embeddingModel
                  (embed_TotalTokens apiResp) (time_Since env))
      end
  end.

End OpenAI.

(* ===================================================================== *)
(** * The Qwen adapter, OpenAI-compatible variant ([qwen_client.go]) *)
(* ===================================================================== *)

Module Qwen.

Record qwenClient := mk {
  config : Config;
  httpClient : http_Client
}.

Definition newQwenClient (config : Config) : result qwenClient :=
  if decide (APIKey config = "") then Err ErrAPIKeyRequired
  else
    let config :=
      if decide (BaseURL config = "")
      then with_BaseURL
             "https://dashscope-intl.aliyuncs.com/compatible-mode/v1" config
      else config in
    let config := defaultTimeout config in
    let config :=
      if decide (DefaultModel config = "")
      then with_DefaultModel "qwen3-next-80b-a3b-instruct" config
      else config in
    Ok (mk config (mkHttpClient (Timeout config))).

Definition getModel (c : qwenClient) (override : option string) : string :=
  match override with
  | Some m => m
  | None => DefaultModel (config c)
  end.

Definition getMaxTokens (c : qwenClient) (override : option Z) : Z :=
  match override with
  | Some n => n
  | None =>
      match DefaultMaxTokens (config c) with
      | Some n => n
      | None => 1500
      end
  end.

Definition convertMessage (msg : Message) : value :=
  VMap {[ "role" := VString (Role msg); "content" := VString (Content msg) ]}.

Definition buildPayload (c : qwenClient) (request : Request)
  : gmap string value :=
  let messages := convertMessage <$> Messages request in
  let payload : gmap string value :=
    {[ "model" := VString (getModel c (Model request));
       "messages" := VList messages;
       "max_tokens" := VInt (getMaxTokens c (MaxTokens request)) ]} in
  let payload :=
    setParam "temperature" VFloat (Temperature request)
      (DefaultTemperature (config c)) payload in
  let payload :=
    setParam "top_p" VFloat (TopP request) (DefaultTopP (config c)) payload in
  let payload :=
    setParam "top_k" VInt (TopK request) (DefaultTopK (config c)) payload in
  copyInto (ExtraParams request) payload.

Definition buildPromptFromMessages (c : qwenClient)
    (messages : list Message) : string := "".

Definition Generate (env : Env) (c : qwenClient) (request : Request)
  : Call Response :=
  let payload := buildPayload c request in
  body ← post env "request" "response" "Qwen API"
            (BaseURL (config c) +:+ "/chat/completions")
            [("Authorization", "Bearer " +:+ APIKey (config c));
             ("X-DashScope-SSE", "disable")] payload;
  apiResp ← try (json_Unmarshal_ChatCompletion env body)
                (ErrUnmarshal "response");
  choice ← firstChoice "no choices in response" apiResp;
  mret (mkResponse (choice_Content choice) RoleAssistant
          (Usage_TotalTokens apiResp) (time_Since env) "").

Definition GenerateWithHistory (env : Env) (c : qwenClient)
    (history : ChatHistory) (userMessage systemPrompt : string)
  : Call Response :=
  Generate env c (historyRequest history userMessage systemPrompt).

Definition Close (c : qwenClient) : option error := None.

Definition GetConfig (c : qwenClient) : Config := config c.

(** Modelled from the spec: [qwenClient.CreateEmbedding] is missing from
    both variants of [qwen_client.go] as given.  The specification and the
    change log describe it as a declared stub that fails with "not
    supported yet", like the Azure stub. *)
Definition CreateEmbedding (env : Env) (c : qwenClient)
    (request : EmbeddingRequest) : Call EmbeddingResponse :=
  throw (ErrEmbeddingsNotSupported "Qwen").

End Qwen.

(* ===================================================================== *)
(** * The Qwen adapter, legacy prompt variant ([qwen_client.go]) *)
(* ===================================================================== *)

Module QwenLegacy.

Record qwenClient := mk {
  config : Config;
  httpClient : http_Client
}.

Definition newQwenClient (config : Config) : result qwenClient :=
  if decide (APIKey config = "") then Err ErrAPIKeyRequired
  else
    let config :=
      if decide (BaseURL config = "")
      then with_BaseURL "https://dashscope.aliyuncs.com/api/v1" config
      else config in
    let config := defaultTimeout config in
    let config :=
      if decide (DefaultModel config = "")
      then with_DefaultModel "qwen-turbo" config
      else config in
    Ok (mk config (mkHttpClient (Timeout config))).

Definition getModel (c : qwenClient) (override : option string) : string :=
  match override with
  | Some m => m
  | None => DefaultModel (config c)
  end.

Definition getMaxTokens (c : qwenClient) (override : option Z) : Z :=
  match override with
  | Some n => n
  | None =>
      match DefaultMaxTokens (config c) with
      | Some n => n
      | None => 1500
      end
  end.

(** One iteration of the loop of [buildPromptFromMessages]. *)
Definition promptStep (prompt : string) (msg : Message) : string :=
  if decide (Role msg = RoleSystem)
  then prompt +:+ "System: " +:+ Content msg +:+ blank_line
  else if decide (Role msg = RoleUser)
  then prompt +:+ "User: " +:+ Content msg +:+ blank_line
  else if decide (Role msg = RoleAssistant)
  then prompt +:+ "Assistant: " +:+ Content msg +:+ blank_line
  else prompt.

Definition buildPromptFromMessages (c : qwenClient)
    (messages : list Message) : string :=
  let prompt := foldl promptStep "" messages in
  prompt +:+ "Assistant:".

Definition buildParameters (c : qwenClient) (request : Request)
  : gmap string value :=
  let parameters : gmap string value :=
    {[ "max_tokens" := VInt (getMaxTokens c (MaxTokens request)) ]} in
  let parameters :=
    setParam "temperature" VFloat (Temperature request)
      (DefaultTemperature (config c)) parameters in
  let parameters :=
    setParam "top_p" VFloat (TopP request) (DefaultTopP (config c))
      parameters in
  setParam "top_k" VInt (TopK request) (DefaultTopK (config c)) parameters.

(** The payload holds its parameters in the nested map under
    ["parameters"], which the builder updates in place; [ExtraParams] is
    not read. *)
Definition buildPayload (c : qwenClient) (request : Request)
  : gmap string value :=
  let prompt :=
    if decide (0 < length (Messages request))%nat
    then buildPromptFromMessages c (Messages request)
    else "" in
  {[ "model" := VString (getModel c (Model request));
     "input" := VMap {[ "prompt" := VString prompt ]};
     "parameters" := VMap (buildParameters c request) ]}.

Definition Generate (env : Env) (c : qwenClient) (request : Request)
  : Call Response :=
  let payload := buildPayload c request in
  body ← post env "request" "response" "Qwen API"
            (BaseURL (config c)
               +:+ "/services/aigc/text-generation/generation")
            [("Authorization", "Bearer " +:+ APIKey (config c));
             ("X-DashScope-SSE", "disable")] payload;
  apiResp ← try (json_Unmarshal_QwenGeneration env body)
                (ErrUnmarshal "response");
  mret (mkResponse (Output_Text apiResp) RoleAssistant
          (qwen_TotalTokens apiResp) (time_Since env) "").

Definition GenerateWithHistory (env : Env) (c : qwenClient)
    (history : ChatHistory) (userMessage systemPrompt : string)
  : Call Response :=
  Generate env c (historyRequest history userMessage systemPrompt).

Definition Close (c : qwenClient) : option error := None.

Definition GetConfig (c : qwenClient) : Config := config c.

End QwenLegacy.

(* ===================================================================== *)
(** * The Azure OpenAI adapter ([azure_client.go]) *)
(* ===================================================================== *)

Module Azure.

Record azureClient := mk {
  config : Config;
  httpClient : http_Client
}.

Definition newAzureClient (config : Config) : result azureClient :=
  if decide (APIKey config = "") then Err ErrAPIKeyRequired
  else if decide (BaseURL config = "") then Err ErrAzureBaseURLRequired
  else if negb (strings_Contains (BaseURL config) "/deployments/")
  then Err ErrAzureDeploymentMissing
  else
    let config := defaultTimeout config in
    let config :=
      if decide (DefaultModel config = "")
      then with_DefaultModel "gpt-35-turbo" config
      else config in
    Ok (mk config (mkHttpClient (Timeout config))).

Definition convertMessages (messages : list Message) : list value :=
  OpenAI.convertMessage <$> messages.

Definition buildPayload (c : azureClient) (request : Request)
  : gmap string value :=
  let payload : gmap string value :=
    {[ "messages" := VList (convertMessages (Messages request));
       "stream" := VBool (Stream request) ]} in
  let payload :=
    setParam "temperature" VFloat (Temperature request)
      (DefaultTemperature (config c)) payload in
  let payload :=
    setParam "max_tokens" VInt (MaxTokens request)
      (DefaultMaxTokens (config c)) payload in
  let payload :=
    setParam "top_p" VFloat (TopP request) (DefaultTopP (config c)) payload in
  copyInto (ExtraParams request) payload.

Definition Generate (env : Env) (c : azureClient) (request : Request)
  : Call Response :=
  let payload := buildPayload c request in
  let url :=
    BaseURL (config c) +:+ "/chat/completions?api-version=2023-12-01-preview" in
  body ← post env "request" "response" "Azure OpenAI API" url
            [("api-key", APIKey (config c))] payload;
  apiResp ← try (json_Unmarshal_ChatCompletion env body)
                (ErrUnmarshal "response");
  choice ← firstChoice "no choices in Azure OpenAI response" apiResp;
  mret (mkResponse (choice_Content choice) (choice_Role choice)
          (Usage_TotalTokens apiResp) (time_Since env)
          (choice_FinishReason choice)).

Definition GenerateWithHistory (env : Env) (c : azureClient)
    (history : ChatHistory) (userMessage systemPrompt : string)
  : Call Response :=
  Generate env c (historyRequest history userMessage systemPrompt).

Definition Close (c : azureClient) : option error := None.

Definition GetConfig (c : azureClient) : Config := config c.

Definition CreateEmbedding (env : Env) (c : azureClient)
    (request : EmbeddingRequest) : Call EmbeddingResponse :=
  throw (ErrEmbeddingsNotSupported "Azure").

End Azure.

(* ===================================================================== *)
(** * The Cohere adapter ([cohere_client.go]) *)
(* ===================================================================== *)

Module Cohere.

Record cohereClient := mk {
  config : Config;
  httpClient : http_Client
}.

Definition newCohereClient (config : Config) : result cohereClient :=
  if decide (APIKey config = "") then Err ErrAPIKeyRequired
  else
    let config :=
      if decide (BaseURL config = "")
      then with_BaseURL "https://api.cohere.ai/v1" config
      else config in
    let config := defaultTimeout config in
    let config :=
      if decide (DefaultModel config = "")
      then with_DefaultModel "embed-multilingual-v3.0" config
      else config in
    Ok (mk config (mkHttpClient (Timeout config))).

Definition getModel (c : cohereClient) (override : option string) : string :=
  match override with
  | Some m => m
  | None =>
      if decide (DefaultModel (config c) = ""
                 ∨ DefaultModel (config c) = "embed-multilingual-v3.0")
      then "command-r-plus"
      else DefaultModel (config c)
  end.

Definition turn (role content : string) : value :=
  VMap {[ "role" := VString role; "message" := VString content ]}.

(** The loop of [buildPayload] over [request.Messages]: [total] is
    [len(request.Messages)], [i] the index of the head of [msgs], and the
    pair is [(message, chatHistory)]. *)
Fixpoint foldMessages (total : Z) (i : Z) (msgs : list Message)
    (acc : string * list value) : string * list value :=
  match msgs with
  | [] => acc
  | msg :: rest =>
      let '(message, chatHistory) := acc in
      let acc' :=
        if decide (Role msg = RoleSystem) then acc
        else if decide (Role msg = RoleUser) then
          if decide (i = total - 1) then (Content msg, chatHistory)
          else (message, chatHistory ++ [turn "USER" (Content msg)])
        else if decide (Role msg = RoleAssistant) then
          (message, chatHistory ++ [turn "CHATBOT" (Content msg)])
        else acc in
      foldMessages total (i + 1) rest acc'
  end.

Definition buildPayload (c : cohereClient) (request : Request)
  : gmap string value :=
  let '(message, chatHistory) :=
    foldMessages (Z.of_nat (length (Messages request))) 0 (Messages request)
      ("", []) in
  let payload : gmap string value :=
    {[ "message" := VString message;
       "model" := VString (getModel c (Model request)) ]} in
  let payload :=
    if decide (0 < length chatHistory)%nat
    then <["chat_history" := VList chatHistory]> payload
    else payload in
  let payload :=
    setParam "temperature" VFloat (Temperature request)
      (DefaultTemperature (config c)) payload in
  let payload :=
    setParam "max_tokens" VInt (MaxTokens request)
      (DefaultMaxTokens (config c)) payload in
  let payload :=
    setParam "p" VFloat (TopP request) (DefaultTopP (config c)) payload in
  let payload :=
    setParam "k" VInt (TopK request) (DefaultTopK (config c)) payload in
  copyInto (ExtraParams request) payload.

Definition Generate (env : Env) (c : cohereClient) (request : Request)
  : Call Response :=
  let payload := buildPayload c request in
  body ← post env "request" "response" "Cohere API"
            (BaseURL (config c) +:+ "/chat")
            [("Authorization", "Bearer " +:+ APIKey (config c))] payload;
  apiResp ← try (json_Unmarshal_CohereChat env body)
                (ErrUnmarshal "response");
  mret (mkResponse (chat_Text apiResp) RoleAssistant
          (wrap64 (chat_InputTokens apiResp + chat_OutputTokens apiResp))
          (time_Since env) (chat_FinishReason apiResp)).

Definition GenerateWithHistory (env : Env) (c : cohereClient)
    (history : ChatHistory) (userMessage systemPrompt : string)
  : Call Response :=
  Generate env c (historyRequest history userMessage systemPrompt).

Definition CreateEmbedding (env : Env) (c : cohereClient)
    (request : EmbeddingRequest) : Call EmbeddingResponse :=
  let embeddingModel :=
    match emb_Model request with
    | Some m => m
    | None =>
        if decide (DefaultModel (config c) ≠ "") then DefaultModel (config c)
        else "embed-multilingual-v3.0"
    end in
  let payload : gmap string value :=
    {[ "model" := VString embeddingModel;
       "texts" := VList (VString <$> emb_Input request);
       "input_type" := VString "search_document" ]} in
  body ← post env "embedding request" "embedding response"
            "Cohere Embedding API" (BaseURL (config c) +:+ "/embed")
            [("Authorization", "Bearer " +:+ APIKey (config c))] payload;
  apiResp ← try (json_Unmarshal_CohereEmbed env body)
                (ErrUnmarshal "embedding response");
  if decide (length (embed_Embeddings apiResp) = 0)%nat
  then throw ErrNoEmbeddings
  else
    mret (mkEmbeddingResponse (embed_Embeddings apiResp) embeddingModel
            (embed_InputTokens apiResp) (time_Since env)).

Definition Close (c : cohereClient) : option error := None.

Definition GetConfig (c : cohereClient) : Config := config c.

End Cohere.

(* ===================================================================== *)
(** * The client contract and the factory ([types.go], [client.go]) *)
(* ===================================================================== *)

(** A value of the interface type [Client]: one of the concrete adapters.
    [newQwenClient] is the OpenAI-compatible variant; the legacy variant
    is the same constructor up to its default URL and model. *)
Inductive Client :=
| OpenAIClient (c : OpenAI.openAIClient)
| QwenClient (c : Qwen.qwenClient)
| QwenLegacyClient (c : QwenLegacy.qwenClient)
| AzureClient (c : Azure.azureClient)
| CohereClient (c : Cohere.cohereClient).

Definition upcast {A} (inj : A → Client) (r : result A) : result Client :=
  match r with
  | Ok c => Ok (inj c)
  | Err e => Err e
  end.

Definition NewOpenAICompatibleClient (config : Config) : result Client :=
  upcast OpenAIClient (OpenAI.newOpenAIClient config).

Definition NewQwenClient (config : Config) : result Client :=
  upcast QwenClient (Qwen.newQwenClient config).

Definition NewAzureClient (config : Config) : result Client :=
  upcast AzureClient (Azure.newAzureClient config).

(** [NewClient], as [client.go] has it: four [case] labels and a
    [default]. *)
Definition NewClient (config : Config) : result Client :=
  if decide (Provider config = ProviderOpenAI
             ∨ Provider config = ProviderDeepSeek)
  then NewOpenAICompatibleClient config
  else if decide (Provider config = ProviderQwen)
  then NewQwenClient config
  else if decide (Provider config = ProviderAzure)
  then NewAzureClient config
  else Err (ErrUnsupportedProvider (Provider config)).

(** Method dispatch through the interface. *)
Definition Client_Generate (env : Env) (client : Client) (request : Request)
  : Call Response :=
  match client with
  | OpenAIClient c => OpenAI.Generate env c request
  | QwenClient c => Qwen.Generate env c request
  | QwenLegacyClient c => QwenLegacy.Generate env c request
  | AzureClient c => Azure.Generate env c request
  | CohereClient c => Cohere.Generate env c request
  end.

Definition Client_GenerateWithHistory (env : Env) (client : Client)
    (history : ChatHistory) (userMessage systemPrompt : string)
  : Call Response :=
  match client with
  | OpenAIClient c =>
      OpenAI.GenerateWithHistory env c history userMessage systemPrompt
  | QwenClient c =>
      Qwen.GenerateWithHistory env c history userMessage systemPrompt
  | QwenLegacyClient c =>
      QwenLegacy.GenerateWithHistory env c history userMessage systemPrompt
  | AzureClient c =>
      Azure.GenerateWithHistory env c history userMessage systemPrompt
  | CohereClient c =>
      Cohere.GenerateWithHistory env c history userMessage systemPrompt
  end.

Definition Client_GetConfig (client : Client) : Config :=
  match client with
  | OpenAIClient c => OpenAI.GetConfig c
  | QwenClient c => Qwen.GetConfig c
  | QwenLegacyClient c => QwenLegacy.GetConfig c
  | AzureClient c => Azure.GetConfig c
  | CohereClient c => Cohere.GetConfig c
  end.

(** The package-level convenience functions. *)
Definition GenerateSimple (env : Env) (client : Client) (prompt : string)
  : Call Response :=
  Client_Generate env client (BuildSimpleRequest prompt).

Definition GenerateWithHistory (env : Env) (client : Client)
    (history : ChatHistory) (userMessage systemPrompt : string)
  : Call Response :=
  Client_Generate env client (historyRequest history userMessage systemPrompt).

Definition GenerateWithSystemPrompt (env : Env) (client : Client)
    (systemPrompt userMessage : string) : Call Response :=
  Client_Generate env client
    (BuildRequestWithSystemPrompt systemPrompt userMessage).

(* ===================================================================== *)
(** * Slices in memory *)
(* ===================================================================== *)

(** The builders above work on the message sequences.  In Go a
    [[]Message] is a slice header over a backing array that other headers
    may share: [GetMessages] returns the history's own header,
    [BuildChatRequest] allocates, [append] writes in place while the
    capacity lasts and reallocates otherwise.  This module embeds the same
    functions over a store of backing arrays, so that what a call writes
    and what it leaves alone can be stated. *)
Module Mem.

Record slice := Slice {
  ptr : nat;
  off : nat;
  len : nat;
  cap : nat
}.

(** The backing arrays, in allocation order. *)
Abbreviation store := (list (list Message)).

Definition nilSlice : slice := Slice 0 0 0 0.

Definition zeroMessage : Message := mkMessage "" "" "".

Definition array (σ : store) (p : nat) : list Message := default [] (σ !! p).

(** The elements a header denotes. *)
Definition elems (σ : store) (s : slice) : list Message :=
  take (len s) (drop (off s) (array σ (ptr s))).

(** A header that lies within its backing array. *)
Definition valid (σ : store) (s : slice) : Prop :=
  (len s ≤ cap s ∧ off s + cap s ≤ length (array σ (ptr s)))%nat.

Definition alloc (a : list Message) (σ : store) : nat * store :=
  (length σ, σ ++ [a]).

(** [copy(a[pos:], xs)] for [pos + len(xs) <= len(a)]. *)
Definition splice (pos : nat) (xs a : list Message) : list Message :=
  take pos a ++ xs ++ drop (pos + length xs) a.

Definition write (p pos : nat) (xs : list Message) (σ : store) : store :=
  alter (splice pos xs) p σ.

(** [make([]Message, 0, n)] *)
Definition make (n : nat) (σ : store) : slice * store :=
  let '(p, σ) := alloc (replicate n zeroMessage) σ in
  (Slice p 0 0 n, σ).

(** A composite literal [[]Message{...}]. *)
Definition literal (xs : list Message) (σ : store) : slice * store :=
  let '(p, σ) := alloc xs σ in
  (Slice p 0 (length xs) (length xs), σ).

(** A request in memory: the header of its messages and its other fields
    (the message list inside [r_fields] is not used). *)
Record request := mkReq {
  r_Messages : slice;
  r_fields : Request
}.

(** The request as the payload builders read it. *)
Definition load (σ : store) (r : request) : Request :=
  with_Messages (elems σ (r_Messages r)) (r_fields r).

Record history := mkHist {
  h_Messages : slice
}.

Definition contents (σ : store) (h : history) : ChatHistory :=
  mkChatHistory (elems σ (h_Messages h)).

Definition GetMessages (h : history) : slice := h_Messages h.

Definition Clear (h : history) : history := mkHist nilSlice.

(** [h.Messages[len(h.Messages)-n:]] shares the backing array. *)
Definition Truncate (n : Z) (h : history) : option history :=
  let s := h_Messages h in
  let low := Z.of_nat (len s) - n in
  if decide (Z.of_nat (len s) > n) then
    if decide (0 <= low <= Z.of_nat (len s)) then
      Some (mkHist (Slice (ptr s) (off s + Z.to_nat low)
                      (len s - Z.to_nat low) (cap s - Z.to_nat low)))
    else None
  else Some h.

(** The state a method call leaves behind: the adapter struct behind the
    receiver pointer and the backing arrays. *)
Record after (A : Type) := mkAfter {
  call : Call A;
  receiver : Client;
  memory : store
}.
Arguments mkAfter {A} call receiver memory.
Arguments call {A} a.
Arguments receiver {A} a.
Arguments memory {A} a.

Section Append.

(** The run time chooses the capacity of a grown slice; [slack old needed]
    is what it adds beyond the needed length. *)
Variable slack : nat → nat → nat.

(** [append(s, xs...)] *)
Definition append (s : slice) (xs : list Message) (σ : store)
  : slice * store :=
  let needed := (len s + length xs)%nat in
  if decide (needed ≤ cap s)%nat then
    (Slice (ptr s) (off s) needed (cap s),
     write (ptr s) (off s + len s) xs σ)
  else
    let newcap := (needed + slack (cap s) needed)%nat in
    let '(p, σ') :=
      alloc (elems σ s ++ xs ++ replicate (newcap - needed) zeroMessage) σ in
    (Slice p 0 needed newcap, σ').

Definition AddMessage (role : MessageRole) (content : string)
    (h : history) (σ : store) : history * store :=
  let '(s, σ) := append (h_Messages h) [mkMessage role content ""] σ in
  (mkHist s, σ).

Definition BuildChatRequest (history : slice) (userMessage : string)
    (σ : store) : request * store :=
  let '(messages, σ) := make (len history + 1) σ in
  let '(messages, σ) := append messages (elems σ history) σ in
  let '(messages, σ) :=
    append messages [mkMessage RoleUser userMessage ""] σ in
  (mkReq messages emptyRequest, σ).

Definition AddSystemMessage (content : string) (r : request) (σ : store)
  : request * store :=
  let '(lit, σ) := literal [mkMessage RoleSystem content ""] σ in
  let '(messages, σ) := append lit (elems σ (r_Messages r)) σ in
  (mkReq messages (r_fields r), σ).

Definition historyRequest (h : history) (userMessage systemPrompt : string)
    (σ : store) : request * store :=
  let '(request, σ) := BuildChatRequest (GetMessages h) userMessage σ in
  if decide (systemPrompt ≠ "") then AddSystemMessage systemPrompt request σ
  else (request, σ).

(** [Generate] reads the request and the receiver's fields; it assigns to
    neither. *)
Definition Generate (env : Env) (client : Client) (r : request)
    (σ : store) : after Response :=
  mkAfter (Client_Generate env client (load σ r)) client σ.

Definition GenerateWithHistory (env : Env) (client : Client)
    (h : history) (userMessage systemPrompt : string) (σ : store)
  : after Response :=
  let '(request, σ) := historyRequest h userMessage systemPrompt σ in
  Generate env client request σ.

End Append.

End Mem.

(* ===================================================================== *)
(** * Vocabulary of the specification *)
(* ===================================================================== *)

(** "The request-level value when set, else the config-level default when
    set". *)
Definition resolve {A} (override default : option A) : option A :=
  match override with
  | Some v => Some v
  | None => default
  end.

(** What a payload holds under [key] when the builder computed [named] for
    it and then copied [extra] over the payload. *)
Definition overlay (extra : gmap string value) (key : string)
    (named : option value) : option value :=
  match extra !! key with
  | Some v => Some v
  | None => named
  end.

(** "The last [n] elements, all of them when there are no more than [n]". *)
Definition lastN {A} (n : nat) (l : list A) : list A :=
  drop (length l - n) l.

(** The Cohere rendering of one prior turn: user turns as [USER],
    assistant turns as [CHATBOT], nothing for any other role. *)
Definition cohereTurn (msg : Message) : option value :=
  if decide (Role msg = RoleUser)
  then Some (Cohere.turn "USER" (Content msg))
  else if decide (Role msg = RoleAssistant)
  then Some (Cohere.turn "CHATBOT" (Content msg))
  else None.

Definition cohereHistory (prior : list Message) : list value :=
  omap cohereTurn prior.

(** "The content of the latest user message". *)
Definition latestUserContent (msgs : list Message) : option string :=
  Content <$> last (filter (λ m, Role m = RoleUser) msgs).

(** A call none of whose failures is "operation not supported". *)
Definition implemented {A} (m : Call A) : Prop :=
  ∀ e, returned m = Err e → kind e ≠ UnsupportedOperationError.

(** ** Concrete inputs used by the examples below *)

Definition exampleConfig (provider : ProviderName) (apiKey : string)
  : Config :=
  mkConfig provider apiKey "" 0 "" None None None None ∅.

Definition exampleOpenAI : OpenAI.openAIClient :=
  OpenAI.mk
    (mkConfig ProviderOpenAI "sk-test" "https://api.openai.com/v1"
       (30 * time_Second) "gpt-3.5-turbo" None None None None ∅)
    (mkHttpClient (30 * time_Second)).

Definition exampleCohere : Cohere.cohereClient :=
  Cohere.mk
    (mkConfig ProviderCohere "co-test" "https://api.cohere.ai/v1"
       (30 * time_Second) "embed-multilingual-v3.0" None None None None ∅)
    (mkHttpClient (30 * time_Second)).

(** A stub transport that answers every request with one reply; the
    encoder and the decoders are fixed functions of their input. *)
Definition stubEnv (reply : HttpOutcome) (embed : CohereEmbed)
    (data : OpenAIEmbed) : Env :=
  mkEnv (λ _, Done "{}") (λ _ _, None) (λ _, reply)
    (λ _, Done (mkChatCompletion [] 0))
    (λ _, Done (mkQwenGeneration "" 0))
    (λ _, Done (mkCohereChat "" 0 0 ""))
    (λ _, Done embed)
    (λ _, Done data)
    0.

(** HTTP 429 with the body "rate limited". *)
Definition rateLimitedEnv : Env :=
  stubEnv (Replied 429 "rate limited") (mkCohereEmbed [] "" 0)
    (mkOpenAIEmbed [] 0).

(** The body [{"embeddings":[[0.5]]}], and HTTP 200 with that body, which
    decodes to a single embedding vector. *)
Definition quote : string := String "034"%char EmptyString.

Definition oneVectorBody : string :=
  "{" +:+ quote +:+ "embeddings" +:+ quote +:+ ":[[0.5]]}".

Definition oneVectorEnv : Env :=
  stubEnv (Replied 200 oneVectorBody)
    (mkCohereEmbed [[0.5%float]] "" 0)
    (mkOpenAIEmbed [mkEmbeddingDatum 0 [0.5%float]] 0).

(* ===================================================================== *)
(** * Vocabulary of the further properties *)
(* ===================================================================== *)

(** What each adapter's [Generate] passes to the round trip: the URL, the
    headers it sets after the content type, the prefix of its status
    error, and its payload. *)
Definition Client_endpoint (client : Client) : string :=
  match client with
  | OpenAIClient c => BaseURL (OpenAI.config c) +:+ "/chat/completions"
  | QwenClient c => BaseURL (Qwen.config c) +:+ "/chat/completions"
  | QwenLegacyClient c =>
      BaseURL (QwenLegacy.config c)
        +:+ "/services/aigc/text-generation/generation"
  | AzureClient c =>
      BaseURL (Azure.config c)
        +:+ "/chat/completions?api-version=2023-12-01-preview"
  | CohereClient c => BaseURL (Cohere.config c) +:+ "/chat"
  end.

Definition bearer (key : string) : string * string :=
  ("Authorization", "Bearer " +:+ key).

Definition Client_headers (client : Client) : list (string * string) :=
  match client with
  | OpenAIClient c => [bearer (APIKey (OpenAI.config c))]
  | QwenClient c =>
      [bearer (APIKey (Qwen.config c)); ("X-DashScope-SSE", "disable")]
  | QwenLegacyClient c =>
      [bearer (APIKey (QwenLegacy.config c)); ("X-DashScope-SSE", "disable")]
  | AzureClient c => [("api-key", APIKey (Azure.config c))]
  | CohereClient c => [bearer (APIKey (Cohere.config c))]
  end.

Definition Client_api (client : Client) : string :=
  match client with
  | OpenAIClient _ => "LLM API"
  | QwenClient _ | QwenLegacyClient _ => "Qwen API"
  | AzureClient _ => "Azure OpenAI API"
  | CohereClient _ => "Cohere API"
  end.

Definition Client_payload (client : Client) (request : Request)
  : gmap string value :=
  match client with
  | OpenAIClient c => OpenAI.buildPayload c request
  | QwenClient c => Qwen.buildPayload c request
  | QwenLegacyClient c => QwenLegacy.buildPayload c request
  | AzureClient c => Azure.buildPayload c request
  | CohereClient c => Cohere.buildPayload c request
  end.

(** The one request a [Generate] can send. *)
Definition Client_request (client : Client) (encoded : string)
  : HttpRequest :=
  mkHttpRequest "POST" (Client_endpoint client)
    (("Content-Type", "application/json") :: Client_headers client) encoded.

(** The adapters whose reply has the OpenAI shape, with the text of their
    "no choices" error. *)
Definition noChoicesText (client : Client) : option string :=
  match client with
  | OpenAIClient _ => Some "no choices in LLM response"
  | QwenClient _ => Some "no choices in response"
  | AzureClient _ => Some "no choices in Azure OpenAI response"
  | QwenLegacyClient _ | CohereClient _ => None
  end.

(** A configuration as the constructors leave it: URL, timeout and model
    filled in. *)
Definition normalised (config : Config) : Prop :=
  BaseURL config ≠ "" ∧ Timeout config ≠ 0 ∧ DefaultModel config ≠ "".

(** The fields no constructor fills in or changes. *)
Definition same_settings (a b : Config) : Prop :=
  Provider a = Provider b ∧ APIKey a = APIKey b
  ∧ DefaultTemperature a = DefaultTemperature b
  ∧ DefaultMaxTokens a = DefaultMaxTokens b
  ∧ DefaultTopP a = DefaultTopP b ∧ DefaultTopK a = DefaultTopK b
  ∧ ExtraConfig a = ExtraConfig b.

(** What the caller filled in is kept. *)
Definition keeps_given (given built : Config) : Prop :=
  (BaseURL given ≠ "" → BaseURL built = BaseURL given)
  ∧ (Timeout given ≠ 0 → Timeout built = Timeout given)
  ∧ (DefaultModel given ≠ "" → DefaultModel built = DefaultModel given).

Definition Client_timeout (client : Client) : Z :=
  match client with
  | OpenAIClient c => client_Timeout (OpenAI.httpClient c)
  | QwenClient c => client_Timeout (Qwen.httpClient c)
  | QwenLegacyClient c => client_Timeout (QwenLegacy.httpClient c)
  | AzureClient c => client_Timeout (Azure.httpClient c)
  | CohereClient c => client_Timeout (Cohere.httpClient c)
  end.

(** Reading a message back out of its OpenAI wire form. *)
Definition readString (v : option value) : option string :=
  match v with
  | Some (VString s) => Some s
  | _ => None
  end.

Definition readMessage (v : value) : option Message :=
  match v with
  | VMap m =>
      match readString (m !! "role"), readString (m !! "content") with
      | Some role, Some content =>
          Some (mkMessage role content
                  (default "" (readString (m !! "name"))))
      | _, _ => None
      end
  | _ => None
  end.

(** The rendering of one message in the legacy Qwen prompt. *)
Definition renderLegacy (msg : Message) : string :=
  if decide (Role msg = RoleSystem)
  then "System: " +:+ Content msg +:+ blank_line
  else if decide (Role msg = RoleUser)
  then "User: " +:+ Content msg +:+ blank_line
  else if decide (Role msg = RoleAssistant)
  then "Assistant: " +:+ Content msg +:+ blank_line
  else "".

Fixpoint concatStrings (l : list string) : string :=
  match l with
  | [] => ""
  | s :: rest => s +:+ concatStrings rest
  end.

(** More stub environments: a transport that fails, an encoder that
    fails, and a 200 reply that decodes to a fixed chat completion or
    Cohere chat reply. *)
Definition unreachableEnv : Env :=
  stubEnv (DoFailed "context deadline exceeded") (mkCohereEmbed [] "" 0)
    (mkOpenAIEmbed [] 0).

Definition unencodableEnv : Env :=
  mkEnv (λ _, Failed "json: unsupported value") (λ _ _, None)
    (λ _, Replied 200 "") (λ _, Failed "") (λ _, Failed "") (λ _, Failed "")
    (λ _, Failed "") (λ _, Failed "") 0.

Definition repliesEnv (completion : ChatCompletion) (chat : CohereChat)
  : Env :=
  mkEnv (λ _, Done "{}") (λ _ _, None) (λ _, Replied 200 "body")
    (λ _, Done completion) (λ _, Done (mkQwenGeneration "" 0))
    (λ _, Done chat) (λ _, Failed "") (λ _, Failed "") 3.

Definition exampleAzure : Azure.azureClient :=
  Azure.mk
    (mkConfig ProviderAzure "az-test"
       "https://r.openai.azure.com/openai/deployments/gpt4"
       (30 * time_Second) "gpt-35-turbo" None None None None ∅)
    (mkHttpClient (30 * time_Second)).

(* ===================================================================== *)
(** * The embedding at work *)
(* ===================================================================== *)

Example Error_unsupported_provider :
  Error (ErrUnsupportedProvider "cohere") = "unsupported LLM provider: cohere".
Proof. reflexivity. Qed.

Example Error_azure_stub :
  Error (ErrEmbeddingsNotSupported "Azure")
  = "embeddings not supported for Azure provider yet".
Proof. reflexivity. Qed.

Example Error_rate_limited :
  Error (ErrAPI "LLM API" 429 "rate limited")
  = "LLM API error 429: rate limited".
Proof. reflexivity. Qed.

(** The stub-endpoint scenario: one user message "ping", a reply whose
    first choice is the assistant's "pong". *)
Example Generate_ping_pong :
  let env :=
    mkEnv (λ _, Done "{}") (λ _ _, None) (λ _, Replied 200 "pong-body")
      (λ _, Done (mkChatCompletion [mkChatChoice "assistant" "pong" "stop"] 5))
      (λ _, Failed "unused") (λ _, Failed "unused") (λ _, Failed "unused")
      (λ _, Failed "unused") 7 in
  OpenAI.Generate env exampleOpenAI (BuildSimpleRequest "ping")
  = ([mkHttpRequest "POST" "https://api.openai.com/v1/chat/completions"
        [("Content-Type", "application/json");
         ("Authorization", "Bearer sk-test")] "{}"],
     Ok (mkResponse "pong" RoleAssistant 5 7 "stop")).
Proof. reflexivity. Qed.

Example Generate_rate_limited :
  returned (OpenAI.Generate rateLimitedEnv exampleOpenAI
              (BuildSimpleRequest "ping"))
  = Err (ErrAPI "LLM API" 429 "rate limited").
Proof. reflexivity. Qed.

Example buildPromptFromMessages_legacy :
  QwenLegacy.buildPromptFromMessages
    (QwenLegacy.mk (OpenAI.config exampleOpenAI) (mkHttpClient 0))
    [mkMessage RoleSystem "s" ""; mkMessage RoleUser "u" ""]
  = "System: s" +:+ blank_line +:+ "User: u" +:+ blank_line +:+ "Assistant:".
Proof. reflexivity. Qed.

Example strings_Contains_deployments :
  strings_Contains
    "https://r.openai.azure.com/openai/deployments/gpt4" "/deployments/"
  = true
  ∧ strings_Contains "https://r.openai.azure.com" "/deployments/" = false.
Proof. split; reflexivity. Qed.

(* ===================================================================== *)
(** * Payload maps *)
(* ===================================================================== *)

Lemma copyInto_union (extra payload : gmap string value) :
  copyInto extra payload = extra ∪ payload.
Proof.
  unfold copyInto.
  apply (map_fold_weak_ind (λ r m, r = m ∪ payload)).
  - by rewrite (left_id_L ∅ (∪)).
  - intros k v m r _ ->. by rewrite insert_union_l.
Qed.

Lemma lookup_copyInto (extra payload : gmap string value) (k : string) :
  copyInto extra payload !! k = overlay extra k (payload !! k).
Proof.
  rewrite copyInto_union, lookup_union. unfold overlay.
  destruct (extra !! k), (payload !! k); reflexivity.
Qed.

Lemma lookup_setParam_eq {A} key (inj : A → value) override default
    (payload : gmap string value) :
  setParam key inj override default payload !! key
  = match resolve override default with
    | Some v => Some (inj v)
    | None => payload !! key
    end.
Proof.
  unfold setParam, resolve.
  destruct override; [by rewrite lookup_insert_eq |].
  destruct default; [by rewrite lookup_insert_eq | done].
Qed.

Lemma lookup_setParam_ne {A} key (inj : A → value) override default
    (payload : gmap string value) (k : string) :
  key ≠ k →
  setParam key inj override default payload !! k = payload !! k.
Proof.
  intros Hne. unfold setParam.
  destruct override; [by rewrite lookup_insert_ne |].
  destruct default; [by rewrite lookup_insert_ne | done].
Qed.

(** Reading a key of a payload built by [setParam] steps over a literal. *)
Ltac payload_lookup :=
  repeat first
    [ rewrite lookup_copyInto
    | rewrite lookup_setParam_eq
    | rewrite lookup_setParam_ne by discriminate
    | rewrite lookup_insert_eq
    | rewrite lookup_insert_ne by discriminate
    | rewrite lookup_singleton_eq
    | rewrite lookup_singleton_ne by discriminate
    | rewrite lookup_empty ].

(* ===================================================================== *)
(** * Calls and their traces *)
(* ===================================================================== *)

Lemma sent_bind_quiet {A B} (m : Call A) (k : A → Call B) :
  (∀ a, sent (k a) = []) → sent (m ≫= k) = sent m.
Proof.
  intros Hk. destruct m as [t [a|e]]; simpl; [| done].
  specialize (Hk a). destruct (k a) as [t' r]. simpl in *. subst.
  by rewrite (right_id_L [] (++)).
Qed.

Lemma sent_try {A} (o : outcome A) wrap : sent (try o wrap) = [].
Proof. by destruct o. Qed.

Lemma sent_firstChoice msg apiResp : sent (firstChoice msg apiResp) = [].
Proof. unfold firstChoice. by destruct (Choices apiResp). Qed.

(** What [post] hands to the HTTP client: at most one request, a POST to
    the given URL whose body is the encoded payload. *)
Lemma post_sent env noun reply api url headers payload :
  sent (post env noun reply api url headers payload) = []
  ∨ ∃ body,
      json_Marshal env payload = Done body ∧
      sent (post env noun reply api url headers payload)
      = [mkHttpRequest "POST" url
           (("Content-Type", "application/json") :: headers) body].
Proof.
  unfold post. destruct (json_Marshal env payload) as [body|cause]; simpl.
  - destruct (http_NewRequest env "POST" url); simpl; [by left |].
    right. exists body. split; [done |].
    destruct (http_Do env _); simpl; [done | done |].
    by case_decide.
  - by left.
Qed.

(** Each [Generate] performs the round trip of [post] on its payload and
    nothing else. *)
Lemma Generate_sent env (client : Client) (request : Request) :
  ∃ noun reply api url headers payload,
    sent (Client_Generate env client request)
    = sent (post env noun reply api url headers payload)
    ∧ payload
      = match client with
        | OpenAIClient c => OpenAI.buildPayload c request
        | QwenClient c => Qwen.buildPayload c request
        | QwenLegacyClient c => QwenLegacy.buildPayload c request
        | AzureClient c => Azure.buildPayload c request
        | CohereClient c => Cohere.buildPayload c request
        end.
Proof.
  destruct client as [c|c|c|c|c]; simpl;
    do 6 eexists; (split; [| reflexivity]).
  - unfold OpenAI.Generate. apply sent_bind_quiet. intros body.
    rewrite sent_bind_quiet; [apply sent_try |]. intros apiResp.
    rewrite sent_bind_quiet; [apply sent_firstChoice | done].
  - unfold Qwen.Generate. apply sent_bind_quiet. intros body.
    rewrite sent_bind_quiet; [apply sent_try |]. intros apiResp.
    rewrite sent_bind_quiet; [apply sent_firstChoice | done].
  - unfold QwenLegacy.Generate. apply sent_bind_quiet. intros body.
    rewrite sent_bind_quiet; [apply sent_try | done].
  - unfold Azure.Generate. apply sent_bind_quiet. intros body.
    rewrite sent_bind_quiet; [apply sent_try |]. intros apiResp.
    rewrite sent_bind_quiet; [apply sent_firstChoice | done].
  - unfold Cohere.Generate. apply sent_bind_quiet. intros body.
    rewrite sent_bind_quiet; [apply sent_try | done].
Qed.

(* ===================================================================== *)
(** * ExtraParams passthrough *)
(* ===================================================================== *)

(** C10.  In the OpenAI-compatible, Azure, Qwen (OpenAI-compatible
    variant) and Cohere payload builders [ExtraParams] is copied into the
    top-level payload after all named fields: whatever key the caller put
    into [ExtraParams] - also one the adapter sets itself, such as
    ["model"], ["messages"], ["max_tokens"] or ["stream"] - is found in the
    payload with the caller's value. *)
Theorem ExtraParams_replace_named_fields
    (request : Request) (k : string) (v : value) :
  ExtraParams request !! k = Some v →
  (∀ c, OpenAI.buildPayload c request !! k = Some v) ∧
  (∀ c, Azure.buildPayload c request !! k = Some v) ∧
  (∀ c, Qwen.buildPayload c request !! k = Some v) ∧
  (∀ c, Cohere.buildPayload c request !! k = Some v).
Proof.
  intros Hk. repeat split; intros c.
  - unfold OpenAI.buildPayload. rewrite lookup_copyInto. unfold overlay.
    by rewrite Hk.
  - unfold Azure.buildPayload. rewrite lookup_copyInto. unfold overlay.
    by rewrite Hk.
  - unfold Qwen.buildPayload. rewrite lookup_copyInto. unfold overlay.
    by rewrite Hk.
  - unfold Cohere.buildPayload.
    destruct (Cohere.foldMessages _ _ _ _) as [message chatHistory].
    rewrite lookup_copyInto. unfold overlay. by rewrite Hk.
Qed.

(** The caller's ["model"] wins over the model the adapter resolved, and
    the caller's ["stream"] over the request's own flag. *)
Lemma ExtraParams_replace_named_fields_witness :
  let request :=
    with_ExtraParams
      {[ "model" := VString "gpt-4"; "stream" := VBool true ]}
      (BuildSimpleRequest "hi") in
  ExtraParams request !! "model" = Some (VString "gpt-4")
  ∧ OpenAI.getModel exampleOpenAI (Model request) = "gpt-3.5-turbo"
  ∧ OpenAI.buildPayload exampleOpenAI request !! "model"
    = Some (VString "gpt-4")
  ∧ Cohere.buildPayload exampleCohere request !! "stream"
    = Some (VBool true).
Proof.
  intros request.
  assert (Hmodel : ExtraParams request !! "model" = Some (VString "gpt-4"))
    by (vm_compute; reflexivity).
  assert (Hstream : ExtraParams request !! "stream" = Some (VBool true))
    by (vm_compute; reflexivity).
  split; [exact Hmodel |]. split; [reflexivity |]. split.
  - exact (proj1 (ExtraParams_replace_named_fields request "model"
                    (VString "gpt-4") Hmodel) exampleOpenAI).
  - exact (proj2 (proj2 (proj2
             (ExtraParams_replace_named_fields request "stream"
                (VBool true) Hstream))) exampleCohere).
Defined.

(** The legacy Qwen builder does not read [ExtraParams]. *)
Lemma QwenLegacy_ignores_ExtraParams c extra (request : Request) :
  QwenLegacy.buildPayload c (with_ExtraParams extra request)
  = QwenLegacy.buildPayload c request.
Proof. reflexivity. Qed.

Lemma Generate_body_is_payload env (client : Client) (request : Request)
    (req : HttpRequest) :
  req ∈ sent (Client_Generate env client request) →
  ∃ payload,
    json_Marshal env payload = Done (http_Body req)
    ∧ payload
      = match client with
        | OpenAIClient c => OpenAI.buildPayload c request
        | QwenClient c => Qwen.buildPayload c request
        | QwenLegacyClient c => QwenLegacy.buildPayload c request
        | AzureClient c => Azure.buildPayload c request
        | CohereClient c => Cohere.buildPayload c request
        end.
Proof.
  destruct (Generate_sent env client request)
    as (noun & reply & api & url & headers & payload & Hsent & Hpayload).
  rewrite Hsent. intros Hin. exists payload. split; [| exact Hpayload].
  destruct (post_sent env noun reply api url headers payload)
    as [Hnone | (body & Hbody & Hone)].
  - rewrite Hnone in Hin. by apply elem_of_nil in Hin.
  - rewrite Hone in Hin. apply list_elem_of_singleton in Hin. by subst.
Qed.

(* ===================================================================== *)
(** * Sampling parameters *)
(* ===================================================================== *)

(** C7, as stated, fails.  The OpenAI-compatible builder never reads
    [request.TopK]: a request-level top-k of 40 leaves no ["top_k"] in the
    payload; and with no temperature set at either level it has no
    hardcoded default to fall back on, the field is left out.  In the
    OpenAI-compatible Qwen builder an [ExtraParams] entry replaces the
    resolved maximum: with [request.MaxTokens] set to 100 and
    [ExtraParams["max_tokens"]] set to 5 the payload holds 5. *)
Lemma OpenAI_payload_ignores_TopK :
  let request := SetTopK 40 (BuildSimpleRequest "hi") in
  let capped :=
    with_ExtraParams {[ "max_tokens" := VInt 5 ]}
      (SetMaxTokens 100 (BuildSimpleRequest "hi")) in
  TopK request = Some 40
  ∧ OpenAI.buildPayload exampleOpenAI request !! "top_k" = None
  ∧ OpenAI.buildPayload exampleOpenAI request !! "temperature" = None
  ∧ MaxTokens capped = Some 100
  ∧ Qwen.buildPayload
      (Qwen.mk (OpenAI.config exampleOpenAI) (mkHttpClient 0)) capped
      !! "max_tokens"
    = Some (VInt 5).
Proof. vm_compute. repeat split; reflexivity. Qed.

(** C7, amended.  Every payload builder resolves temperature and top-p by
    taking the request-level value when set, else the config-level default
    when set, and leaves the field out when neither is set.  Max-tokens is
    resolved in the same way by the OpenAI-compatible, Azure and Cohere
    builders, while both Qwen builders always send it, with 1500 as the
    hardcoded default.  Top-k is resolved in this way only by the Qwen and
    Cohere builders; the OpenAI-compatible and Azure builders never send
    it.  Cohere names top-p and top-k ["p"] and ["k"]; the legacy Qwen
    builder keeps the four fields in the nested ["parameters"] map.  In the
    builders that copy [ExtraParams], an entry of [ExtraParams] under the
    same key replaces the resolved value ([overlay]). *)
Theorem sampling_parameters_resolved (request : Request) :
  let extra := ExtraParams request in
  let float (key : string) (o d : option float64) :=
    overlay extra key (VFloat <$> resolve o d) in
  let int (key : string) (o d : option Z) :=
    overlay extra key (VInt <$> resolve o d) in
  (∀ c, let p := OpenAI.buildPayload c request in
        let cfg := OpenAI.config c in
     p !! "temperature"
       = float "temperature" (Temperature request) (DefaultTemperature cfg)
     ∧ p !! "max_tokens"
       = int "max_tokens" (MaxTokens request) (DefaultMaxTokens cfg)
     ∧ p !! "top_p" = float "top_p" (TopP request) (DefaultTopP cfg)
     ∧ p !! "top_k" = extra !! "top_k")
  ∧ (∀ c, let p := Azure.buildPayload c request in
          let cfg := Azure.config c in
     p !! "temperature"
       = float "temperature" (Temperature request) (DefaultTemperature cfg)
     ∧ p !! "max_tokens"
       = int "max_tokens" (MaxTokens request) (DefaultMaxTokens cfg)
     ∧ p !! "top_p" = float "top_p" (TopP request) (DefaultTopP cfg)
     ∧ p !! "top_k" = extra !! "top_k")
  ∧ (∀ c, let p := Qwen.buildPayload c request in
          let cfg := Qwen.config c in
     p !! "temperature"
       = float "temperature" (Temperature request) (DefaultTemperature cfg)
     ∧ p !! "max_tokens"
       = overlay extra "max_tokens"
           (Some (VInt (default 1500
                          (resolve (MaxTokens request)
                             (DefaultMaxTokens cfg)))))
     ∧ p !! "top_p" = float "top_p" (TopP request) (DefaultTopP cfg)
     ∧ p !! "top_k" = int "top_k" (TopK request) (DefaultTopK cfg))
  ∧ (∀ c, let cfg := QwenLegacy.config c in
     ∃ parameters,
       QwenLegacy.buildPayload c request !! "parameters"
         = Some (VMap parameters)
       ∧ parameters !! "temperature"
         = VFloat <$> resolve (Temperature request) (DefaultTemperature cfg)
       ∧ parameters !! "max_tokens"
         = Some (VInt (default 1500
                         (resolve (MaxTokens request)
                            (DefaultMaxTokens cfg))))
       ∧ parameters !! "top_p"
         = VFloat <$> resolve (TopP request) (DefaultTopP cfg)
       ∧ parameters !! "top_k"
         = VInt <$> resolve (TopK request) (DefaultTopK cfg))
  ∧ (∀ c, let p := Cohere.buildPayload c request in
          let cfg := Cohere.config c in
     p !! "temperature"
       = float "temperature" (Temperature request) (DefaultTemperature cfg)
     ∧ p !! "max_tokens"
       = int "max_tokens" (MaxTokens request) (DefaultMaxTokens cfg)
     ∧ p !! "p" = float "p" (TopP request) (DefaultTopP cfg)
     ∧ p !! "k" = int "k" (TopK request) (DefaultTopK cfg)).
Proof.
  intros extra float int. subst float int extra.
  split; [| split; [| split; [| split]]]; intros c; cbv zeta.
  - unfold OpenAI.buildPayload. repeat split; payload_lookup;
      unfold overlay;
      repeat match goal with |- context [resolve ?o ?d] =>
        destruct (resolve o d) end;
      try destruct (ExtraParams request !! _); reflexivity.
  - unfold Azure.buildPayload. repeat split; payload_lookup;
      unfold overlay;
      repeat match goal with |- context [resolve ?o ?d] =>
        destruct (resolve o d) end;
      try destruct (ExtraParams request !! _); reflexivity.
  - unfold Qwen.buildPayload, Qwen.getMaxTokens.
    repeat split; payload_lookup; unfold overlay, resolve;
      destruct (Temperature request), (MaxTokens request), (TopP request),
        (TopK request), (DefaultTemperature (Qwen.config c)),
        (DefaultMaxTokens (Qwen.config c)), (DefaultTopP (Qwen.config c)),
        (DefaultTopK (Qwen.config c)); reflexivity.
  - eexists. unfold QwenLegacy.buildPayload.
    split; [by payload_lookup |].
    unfold QwenLegacy.buildParameters, QwenLegacy.getMaxTokens.
    repeat split; payload_lookup; unfold resolve;
      destruct (Temperature request), (MaxTokens request), (TopP request),
        (TopK request), (DefaultTemperature (QwenLegacy.config c)),
        (DefaultMaxTokens (QwenLegacy.config c)),
        (DefaultTopP (QwenLegacy.config c)),
        (DefaultTopK (QwenLegacy.config c)); reflexivity.
  - unfold Cohere.buildPayload.
    destruct (Cohere.foldMessages _ _ _ _) as [message chatHistory].
    repeat split; payload_lookup; case_decide; payload_lookup;
      unfold overlay;
      repeat match goal with |- context [resolve ?o ?d] =>
        destruct (resolve o d) end;
      try destruct (ExtraParams request !! _); reflexivity.
Qed.

(* ===================================================================== *)
(** * Chat history *)
(* ===================================================================== *)

Lemma length_lastN {A} (n : nat) (l : list A) :
  length (lastN n l) = Nat.min n (length l).
Proof. unfold lastN. rewrite length_drop. lia. Qed.

Lemma lastN_suffix {A} (n : nat) (l : list A) :
  l = take (length l - n) l ++ lastN n l.
Proof. unfold lastN. by rewrite take_drop. Qed.

Lemma Truncate_lastN (h : ChatHistory) (n : Z) :
  0 <= n →
  Truncate n h = Some (mkChatHistory (lastN (Z.to_nat n) (hist_Messages h))).
Proof.
  intros Hn. unfold Truncate, slice_from, lastN.
  destruct h as [msgs]; simpl.
  case_decide as Hlen; simpl in Hlen.
  - rewrite decide_True by lia. simpl.
    by replace (Z.to_nat (Z.of_nat (length msgs) - n))
      with (length msgs - Z.to_nat n)%nat by lia.
  - replace (length msgs - Z.to_nat n)%nat with 0%nat by lia.
    by rewrite drop_0.
Qed.

(** C8.  For every history [h] and every [n >= 0], [h.Truncate(n)] returns
    normally; afterwards the length of [h.GetMessages()] is the minimum of
    [n] and the length before the call, and the messages are exactly the
    last [n] of the original sequence (all of them when there were no more
    than [n]), in their original order: the original sequence is the
    dropped prefix followed by what remains. *)
Theorem Truncate_keeps_last (h : ChatHistory) (n : Z) :
  0 <= n →
  ∃ h',
    Truncate n h = Some h'
    ∧ Z.of_nat (length (GetMessages h'))
      = Z.min n (Z.of_nat (length (GetMessages h)))
    ∧ GetMessages h' = lastN (Z.to_nat n) (GetMessages h)
    ∧ (Z.of_nat (length (GetMessages h)) <= n → GetMessages h' = GetMessages h)
    ∧ ∃ dropped, GetMessages h = dropped ++ GetMessages h'.
Proof.
  intros Hn. eexists. split; [by apply Truncate_lastN |].
  unfold GetMessages; simpl. repeat split.
  - rewrite length_lastN. lia.
  - intros Hle. unfold lastN.
    replace (length (hist_Messages h) - Z.to_nat n)%nat with 0%nat by lia.
    apply drop_0.
  - eexists. apply lastN_suffix.
Qed.

Lemma Truncate_keeps_last_witness :
  let a := mkMessage RoleSystem "You are helpful" "" in
  let b := mkMessage RoleUser "Hello" "" in
  let c := mkMessage RoleAssistant "Hi!" "" in
  ∃ h',
    Truncate 2 (mkChatHistory [a; b; c]) = Some h'
    ∧ Z.of_nat (length (GetMessages h')) = 2
    ∧ GetMessages h' = [b; c].
Proof.
  intros a b c.
  destruct (Truncate_keeps_last (mkChatHistory [a; b; c]) 2 ltac:(lia))
    as (h' & Htr & Hlen & Hlast & _).
  exists h'. split; [exact Htr |]. split; [exact Hlen | exact Hlast].
Defined.

(** A negative [n] is outside the claim: the slice expression panics. *)
Lemma Truncate_negative_panics :
  Truncate (-1) (mkChatHistory [mkMessage RoleUser "Hello" ""]) = None.
Proof. reflexivity. Qed.

(* ===================================================================== *)
(** * GenerateWithHistory *)
(* ===================================================================== *)

Lemma historyRequest_Messages (h : ChatHistory) (userMessage systemPrompt : string) :
  historyRequest h userMessage systemPrompt
  = mkRequest
      ((if decide (systemPrompt = "") then []
        else [mkMessage RoleSystem systemPrompt ""])
         ++ GetMessages h ++ [mkMessage RoleUser userMessage ""])
      "" None None None None false ∅ None.
Proof.
  unfold historyRequest, BuildChatRequest, AddSystemMessage, with_Messages.
  simpl. destruct (decide (systemPrompt = "")) as [->|Hne].
  - by rewrite decide_False by (intros H; by apply H).
  - by rewrite decide_True by done.
Qed.

(** C5.  For every adapter, history, user message and system prompt,
    [GenerateWithHistory] is [Generate] on the request whose message
    sequence is: a system message with the prompt as content (present if
    and only if the prompt is non-empty), then the history's messages in
    their order, then a user message with the new content as last element;
    every other field of that request is unset.  The package-level
    [GenerateWithHistory] builds the same request. *)
Theorem GenerateWithHistory_request env (client : Client) (h : ChatHistory)
    (userMessage systemPrompt : string) :
  let request :=
    mkRequest
      ((if decide (systemPrompt = "") then []
        else [mkMessage RoleSystem systemPrompt ""])
         ++ GetMessages h ++ [mkMessage RoleUser userMessage ""])
      "" None None None None false ∅ None in
  Client_GenerateWithHistory env client h userMessage systemPrompt
  = Client_Generate env client request
  ∧ GenerateWithHistory env client h userMessage systemPrompt
    = Client_Generate env client request.
Proof.
  intros request. subst request.
  rewrite <- historyRequest_Messages. by destruct client.
Qed.

(* ===================================================================== *)
(** * What a call writes *)
(* ===================================================================== *)

Lemma array_alloc_old (σ : Mem.store) a p :
  (p < length σ)%nat → Mem.array (σ ++ [a]) p = Mem.array σ p.
Proof. intros Hp. unfold Mem.array. by rewrite lookup_app_l. Qed.

Lemma array_alloc_new (σ : Mem.store) a :
  Mem.array (σ ++ [a]) (length σ) = a.
Proof. unfold Mem.array. by rewrite list_lookup_middle. Qed.

Lemma array_prefix (σ σ' : Mem.store) p :
  σ `prefix_of` σ' → (p < length σ)%nat → Mem.array σ' p = Mem.array σ p.
Proof.
  intros Hpre Hp. unfold Mem.array. by rewrite (prefix_lookup_lt σ σ').
Qed.

Lemma length_elems (σ : Mem.store) s :
  Mem.valid σ s → length (Mem.elems σ s) = Mem.len s.
Proof.
  intros [Hlen Hcap]. unfold Mem.elems.
  rewrite length_take, length_drop. lia.
Qed.

(** A header that lies within its array denotes the same elements in
    every store that extends the one it was valid in. *)
Lemma elems_prefix (σ σ' : Mem.store) s :
  σ `prefix_of` σ' → Mem.valid σ s → Mem.elems σ' s = Mem.elems σ s.
Proof.
  intros Hpre [Hlen Hcap]. unfold Mem.elems.
  destruct (decide (Mem.ptr s < length σ)%nat) as [Hp|Hp].
  - by rewrite (array_prefix σ σ').
  - assert (Mem.array σ (Mem.ptr s) = []) as Hnil.
    { unfold Mem.array. rewrite lookup_ge_None_2; [done | lia]. }
    rewrite Hnil in *. simpl in Hcap.
    replace (Mem.len s) with 0%nat by lia. done.
Qed.

Lemma valid_prefix (σ σ' : Mem.store) s :
  σ `prefix_of` σ' → Mem.valid σ s → Mem.valid σ' s.
Proof.
  intros Hpre [Hlen Hcap]. split; [done |].
  destruct (decide (Mem.ptr s < length σ)%nat) as [Hp|Hp].
  - by rewrite (array_prefix σ σ').
  - assert (Mem.array σ (Mem.ptr s) = []) as Hnil.
    { unfold Mem.array. rewrite lookup_ge_None_2; [done | lia]. }
    rewrite Hnil in Hcap. simpl in Hcap. lia.
Qed.

Lemma write_prefix (σ0 σ : Mem.store) p pos xs :
  σ0 `prefix_of` σ → (length σ0 ≤ p)%nat →
  σ0 `prefix_of` Mem.write p pos xs σ.
Proof.
  intros [k ->] Hp. unfold Mem.write.
  rewrite alter_app_r_alt by done. by apply prefix_app_r.
Qed.

(** [append] to a slice allocated after [σ0] leaves the arrays of [σ0]
    alone and returns a slice allocated after [σ0]. *)
Lemma append_fresh slack (σ0 σ : Mem.store) s xs :
  σ0 `prefix_of` σ → (length σ0 ≤ Mem.ptr s)%nat →
  σ0 `prefix_of` (Mem.append slack s xs σ).2
  ∧ (length σ0 ≤ Mem.ptr (Mem.append slack s xs σ).1)%nat.
Proof.
  intros Hpre Hp. unfold Mem.append. case_decide; simpl.
  - split; [by apply write_prefix | done].
  - split; [by apply prefix_app_r |].
    apply prefix_length in Hpre. lia.
Qed.

Lemma append_extends slack (σ : Mem.store) s xs :
  (Mem.cap s < Mem.len s + length xs)%nat →
  σ `prefix_of` (Mem.append slack s xs σ).2.
Proof.
  intros Hgrow. unfold Mem.append.
  rewrite decide_False by lia. simpl. by apply prefix_app_r.
Qed.

Lemma BuildChatRequest_fresh slack history userMessage (σ : Mem.store) :
  σ `prefix_of` (Mem.BuildChatRequest slack history userMessage σ).2
  ∧ (length σ
     ≤ Mem.ptr (Mem.r_Messages
                  (Mem.BuildChatRequest slack history userMessage σ).1))%nat.
Proof.
  unfold Mem.BuildChatRequest, Mem.make, Mem.alloc.
  set (σ1 := σ ++ [replicate (Mem.len history + 1) Mem.zeroMessage]).
  set (s1 := Mem.Slice (length σ) 0 0 (Mem.len history + 1)).
  assert (σ `prefix_of` σ1) as H1 by (by apply prefix_app_r).
  destruct (append_fresh slack σ σ1 s1 (Mem.elems σ1 history) H1)
    as [H2 Hp2]; [done |].
  destruct (Mem.append slack s1 _ σ1) as [s2 σ2]; simpl in *.
  destruct (append_fresh slack σ σ2 s2
              [mkMessage RoleUser userMessage ""] H2 Hp2) as [H3 Hp3].
  by destruct (Mem.append slack s2 _ σ2) as [s3 σ3].
Qed.

Lemma AddSystemMessage_fresh slack content r (σ0 σ : Mem.store) :
  σ0 `prefix_of` σ →
  σ0 `prefix_of` (Mem.AddSystemMessage slack content r σ).2
  ∧ (length σ0
     ≤ Mem.ptr (Mem.r_Messages
                  (Mem.AddSystemMessage slack content r σ).1))%nat.
Proof.
  intros Hpre. unfold Mem.AddSystemMessage, Mem.literal, Mem.alloc.
  set (σ1 := σ ++ [[mkMessage RoleSystem content ""]]).
  set (lit := Mem.Slice (length σ) 0 _ _).
  assert (σ0 `prefix_of` σ1) as H1 by (by apply prefix_app_r).
  assert (length σ0 ≤ Mem.ptr lit)%nat as Hp1
    by (apply prefix_length in Hpre; simpl; lia).
  destruct (append_fresh slack σ0 σ1 lit
              (Mem.elems σ1 (Mem.r_Messages r)) H1 Hp1) as [H2 Hp2].
  by destruct (Mem.append slack lit _ σ1) as [s2 σ2].
Qed.

(** The request [GenerateWithHistory] builds lives in arrays allocated by
    the call; every array that existed before is left as it was. *)
Lemma historyRequest_fresh slack h userMessage systemPrompt (σ : Mem.store) :
  σ `prefix_of` (Mem.historyRequest slack h userMessage systemPrompt σ).2
  ∧ (length σ
     ≤ Mem.ptr (Mem.r_Messages
          (Mem.historyRequest slack h userMessage systemPrompt σ).1))%nat.
Proof.
  unfold Mem.historyRequest.
  destruct (BuildChatRequest_fresh slack (Mem.GetMessages h) userMessage σ)
    as [H1 Hp1].
  destruct (Mem.BuildChatRequest slack _ userMessage σ) as [r1 σ1];
    simpl in *.
  case_decide; [| done].
  by apply AddSystemMessage_fresh.
Qed.

(* ===================================================================== *)
(** * The memory-level builders compute the sequence-level ones *)
(* ===================================================================== *)

Lemma length_splice pos xs (a : list Message) :
  (pos + length xs ≤ length a)%nat → length (Mem.splice pos xs a) = length a.
Proof.
  intros Hfit. unfold Mem.splice.
  rewrite !length_app, length_take, length_drop. lia.
Qed.

Lemma window_splice off len xs (a : list Message) :
  (off + len + length xs ≤ length a)%nat →
  take (len + length xs) (drop off (Mem.splice (off + len) xs a))
  = take len (drop off a) ++ xs.
Proof.
  intros Hfit. unfold Mem.splice.
  rewrite drop_app_le by (rewrite length_take; lia).
  rewrite <- take_drop_commute.
  rewrite take_app_add' by (rewrite length_take, length_drop; lia).
  by rewrite take_app_length.
Qed.

Lemma array_write (σ : Mem.store) p pos xs :
  Mem.array (Mem.write p pos xs σ) p
  = match σ !! p with
    | Some a => Mem.splice pos xs a
    | None => []
    end.
Proof.
  unfold Mem.array, Mem.write. rewrite list_lookup_alter_eq.
  by destruct (σ !! p).
Qed.

(** [append] denotes the old elements followed by the new ones, and its
    result lies within its array. *)
Lemma append_elems slack (σ : Mem.store) s xs :
  Mem.valid σ s →
  Mem.elems (Mem.append slack s xs σ).2 (Mem.append slack s xs σ).1
  = Mem.elems σ s ++ xs
  ∧ Mem.valid (Mem.append slack s xs σ).2 (Mem.append slack s xs σ).1.
Proof.
  intros [Hlen Hcap]. unfold Mem.append. case_decide as Hfit; simpl.
  - unfold Mem.elems, Mem.valid; simpl. rewrite array_write.
    unfold Mem.array in *. destruct (σ !! Mem.ptr s) as [a|]; simpl in *.
    + rewrite window_splice by lia. split; [done |].
      rewrite length_splice by lia. lia.
    + assert (Mem.len s = 0%nat ∧ length xs = 0%nat) as [-> Hxs] by lia.
      destruct xs; [| done]. split; [done | simpl in *; lia].
  - assert (length (Mem.elems σ s) = Mem.len s) as Hel
      by (by apply length_elems).
    unfold Mem.elems at 1, Mem.valid; simpl.
    rewrite array_alloc_new, drop_0.
    split.
    + rewrite take_app_add' by done. by rewrite take_app_length.
    + rewrite !length_app, length_replicate. lia.
Qed.

Lemma BuildChatRequest_load slack history userMessage (σ : Mem.store) :
  Mem.valid σ history →
  let built := Mem.BuildChatRequest slack history userMessage σ in
  Mem.valid built.2 (Mem.r_Messages built.1)
  ∧ Mem.load built.2 built.1
    = BuildChatRequest (Mem.elems σ history) userMessage.
Proof.
  intros Hvalid. unfold Mem.BuildChatRequest, Mem.make, Mem.alloc.
  set (σ1 := σ ++ [replicate (Mem.len history + 1) Mem.zeroMessage]).
  set (s1 := Mem.Slice (length σ) 0 0 (Mem.len history + 1)).
  assert (σ `prefix_of` σ1) as H1 by (by apply prefix_app_r).
  assert (Mem.valid σ1 s1) as Hv1.
  { split; simpl; [lia |]. subst σ1. rewrite array_alloc_new.
    rewrite length_replicate. lia. }
  assert (Mem.elems σ1 s1 = []) as He1 by done.
  destruct (append_elems slack σ1 s1 (Mem.elems σ1 history) Hv1)
    as [He2 Hv2].
  destruct (Mem.append slack s1 _ σ1) as [s2 σ2]; cbn [fst snd] in *.
  rewrite He1, (elems_prefix σ σ1) in He2 by done.
  destruct (append_elems slack σ2 s2
              [mkMessage RoleUser userMessage ""] Hv2) as [He3 Hv3].
  destruct (Mem.append slack s2 _ σ2) as [s3 σ3]; cbn [fst snd] in *.
  split; [done |].
  unfold Mem.load, BuildChatRequest; simpl. by rewrite He3, He2.
Qed.

Lemma AddSystemMessage_load slack content r (σ : Mem.store) :
  Mem.valid σ (Mem.r_Messages r) →
  let added := Mem.AddSystemMessage slack content r σ in
  Mem.valid added.2 (Mem.r_Messages added.1)
  ∧ Mem.load added.2 added.1 = AddSystemMessage content (Mem.load σ r).
Proof.
  intros Hvalid. unfold Mem.AddSystemMessage, Mem.literal, Mem.alloc.
  set (σ1 := σ ++ [[mkMessage RoleSystem content ""]]).
  set (lit := Mem.Slice (length σ) 0 _ _).
  assert (σ `prefix_of` σ1) as H1 by (by apply prefix_app_r).
  assert (Mem.valid σ1 lit) as Hv1.
  { split; simpl; [lia |]. subst σ1. by rewrite array_alloc_new. }
  assert (Mem.elems σ1 lit = [mkMessage RoleSystem content ""]) as He1.
  { unfold Mem.elems; simpl. subst σ1. by rewrite array_alloc_new. }
  destruct (append_elems slack σ1 lit
              (Mem.elems σ1 (Mem.r_Messages r)) Hv1) as [He2 Hv2].
  destruct (Mem.append slack lit _ σ1) as [s2 σ2]; cbn [fst snd] in *.
  rewrite He1, (elems_prefix σ σ1) in He2 by done.
  split; [done |].
  unfold Mem.load, AddSystemMessage, with_Messages; simpl. by rewrite He2.
Qed.

(** The request built in memory is, read back, the request of the
    sequence-level [historyRequest] on the history's elements. *)
Lemma historyRequest_load slack h userMessage systemPrompt (σ : Mem.store) :
  Mem.valid σ (Mem.GetMessages h) →
  let built := Mem.historyRequest slack h userMessage systemPrompt σ in
  Mem.load built.2 built.1
  = historyRequest (Mem.contents σ h) userMessage systemPrompt.
Proof.
  intros Hvalid. unfold Mem.historyRequest, historyRequest.
  destruct (BuildChatRequest_load slack (Mem.GetMessages h) userMessage σ
              Hvalid) as [Hv1 Hl1].
  destruct (Mem.BuildChatRequest slack _ userMessage σ) as [r1 σ1];
    simpl in *.
  case_decide.
  - destruct (AddSystemMessage_load slack systemPrompt r1 σ1 Hv1)
      as [_ Hl2].
    rewrite Hl2, Hl1. done.
  - simpl. by rewrite Hl1.
Qed.

Lemma Mem_AddMessage_contents slack role content h (σ : Mem.store) :
  Mem.valid σ (Mem.GetMessages h) →
  let added := Mem.AddMessage slack role content h σ in
  Mem.contents added.2 added.1 = AddMessage role content (Mem.contents σ h).
Proof.
  intros Hvalid. unfold Mem.AddMessage.
  destruct (append_elems slack σ (Mem.h_Messages h)
              [mkMessage role content ""] Hvalid) as [He _].
  destruct (Mem.append slack _ _ σ) as [s σ']; cbn [fst snd] in *.
  unfold Mem.contents, AddMessage; simpl. by rewrite He.
Qed.

(** Truncation in memory is a new header over the same array, and it
    denotes what the sequence-level [Truncate] keeps. *)
Lemma Mem_Truncate_contents n h (σ : Mem.store) :
  Mem.valid σ (Mem.GetMessages h) →
  Mem.contents σ <$> Mem.Truncate n h = Truncate n (Mem.contents σ h).
Proof.
  intros Hvalid. pose proof (length_elems σ _ Hvalid) as Hlen.
  unfold Mem.GetMessages in *.
  unfold Mem.Truncate, Truncate, slice_from, Mem.contents; simpl.
  rewrite Hlen.
  destruct (decide (Z.of_nat (Mem.len (Mem.h_Messages h)) > n)); [| done].
  case_decide as Hlow; [| done]. simpl. do 2 f_equal.
  unfold Mem.elems; simpl.
  set (low := Z.to_nat (Z.of_nat (Mem.len (Mem.h_Messages h)) - n)).
  rewrite <- drop_drop, take_drop_commute.
  by replace (low + (Mem.len (Mem.h_Messages h) - low))%nat
    with (Mem.len (Mem.h_Messages h)) by lia.
Qed.

(** At the level of memory a [GenerateWithHistory] call returns what the
    sequence-level call returns on the history's elements. *)
Lemma Mem_GenerateWithHistory_call slack env (client : Client)
    (h : Mem.history) (userMessage systemPrompt : string) (σ : Mem.store) :
  Mem.valid σ (Mem.GetMessages h) →
  Mem.call (Mem.GenerateWithHistory slack env client h userMessage
              systemPrompt σ)
  = Client_GenerateWithHistory env client (Mem.contents σ h) userMessage
      systemPrompt.
Proof.
  intros Hvalid. unfold Mem.GenerateWithHistory.
  pose proof (historyRequest_load slack h userMessage systemPrompt σ Hvalid)
    as Hload.
  destruct (Mem.historyRequest slack h userMessage systemPrompt σ)
    as [request σ']; cbn [fst snd] in *.
  unfold Mem.Generate; simpl. rewrite Hload. by destruct client.
Qed.

Lemma Mem_GenerateWithHistory_frame slack env (client : Client)
    (h : Mem.history) (userMessage systemPrompt : string) (σ : Mem.store) :
  let a :=
    Mem.GenerateWithHistory slack env client h userMessage systemPrompt σ in
  Mem.receiver a = client ∧ σ `prefix_of` Mem.memory a.
Proof.
  unfold Mem.GenerateWithHistory.
  destruct (historyRequest_fresh slack h userMessage systemPrompt σ)
    as [Hpre _].
  by destruct (Mem.historyRequest slack h userMessage systemPrompt σ)
    as [request σ'].
Qed.

(** C9.  A call of [Generate] or [GenerateWithHistory] that returns an
    error leaves the adapter's stored configuration unchanged and leaves
    the caller's history unchanged: [Generate] writes to no array;
    [GenerateWithHistory] builds its request in arrays it allocates, so
    every array that existed before the call - the history's among them -
    holds what it held, the history's header still lies within its array
    and denotes the same message sequence. *)
Theorem failed_call_leaves_adapter_and_history slack env (client : Client)
    (h : Mem.history) (userMessage systemPrompt : string)
    (r : Mem.request) (σ : Mem.store) :
  Mem.valid σ (Mem.GetMessages h) →
  (let a := Mem.Generate env client r σ in
   is_Err (returned (Mem.call a)) →
   Client_GetConfig (Mem.receiver a) = Client_GetConfig client
   ∧ Mem.receiver a = client
   ∧ Mem.memory a = σ
   ∧ Mem.contents (Mem.memory a) h = Mem.contents σ h)
  ∧ (let a :=
       Mem.GenerateWithHistory slack env client h userMessage systemPrompt σ
     in
     is_Err (returned (Mem.call a)) →
     Client_GetConfig (Mem.receiver a) = Client_GetConfig client
     ∧ Mem.receiver a = client
     ∧ σ `prefix_of` Mem.memory a
     ∧ Mem.valid (Mem.memory a) (Mem.GetMessages h)
     ∧ Mem.contents (Mem.memory a) h = Mem.contents σ h).
Proof.
  intros Hvalid. split.
  - intros a _. by subst a.
  - intros a _.
    destruct (Mem_GenerateWithHistory_frame slack env client h userMessage
                systemPrompt σ) as [Hc Hpre].
    fold a in Hc, Hpre. rewrite Hc.
    split; [done |]. split; [done |]. split; [done |].
    split; [by apply (valid_prefix σ) |].
    unfold Mem.contents. f_equal. by apply elems_prefix.
Qed.

(** A rate-limited call with a two-message history in one array. *)
Lemma failed_call_leaves_adapter_and_history_witness :
  let m1 := mkMessage RoleUser "a" "" in
  let m2 := mkMessage RoleAssistant "b" "" in
  let σ : Mem.store := [[m1; m2]] in
  let h := Mem.mkHist (Mem.Slice 0 0 2 2) in
  let a :=
    Mem.GenerateWithHistory (λ _ n, n) rateLimitedEnv
      (OpenAIClient exampleOpenAI) h "c" "be brief" σ in
  returned (Mem.call a) = Err (ErrAPI "LLM API" 429 "rate limited")
  ∧ Client_GetConfig (Mem.receiver a) = OpenAI.config exampleOpenAI
  ∧ Mem.contents (Mem.memory a) h = mkChatHistory [m1; m2].
Proof.
  intros m1 m2 σ h a.
  assert (Mem.valid σ (Mem.GetMessages h)) as Hvalid
    by (split; simpl; lia).
  assert (returned (Mem.call a) = Err (ErrAPI "LLM API" 429 "rate limited"))
    as Hret by (vm_compute; reflexivity).
  assert (is_Err (returned (Mem.call a))) as Herr by (rewrite Hret; exact I).
  destruct (failed_call_leaves_adapter_and_history (λ _ n, n) rateLimitedEnv
              (OpenAIClient exampleOpenAI) h "c" "be brief"
              (Mem.mkReq Mem.nilSlice emptyRequest) σ Hvalid) as [_ HG].
  destruct (HG Herr) as (Hcfg & _ & _ & _ & Hcontents).
  split; [exact Hret |]. split; [exact Hcfg | exact Hcontents].
Defined.

(* ===================================================================== *)
(** * The Cohere chat payload *)
(* ===================================================================== *)

Lemma cohereTurn_system (msg : Message) :
  Role msg = RoleSystem → cohereTurn msg = None.
Proof. intros H. unfold cohereTurn. rewrite H. reflexivity. Qed.

Lemma cohereHistory_drops_system (prior : list Message) :
  cohereHistory (filter (λ msg, Role msg ≠ RoleSystem) prior)
  = cohereHistory prior.
Proof.
  unfold cohereHistory. induction prior as [|msg prior IH]; [done |].
  rewrite filter_cons. cbn [omap list_omap].
  destruct (decide (Role msg ≠ RoleSystem)) as [Hne|Heq].
  - cbn [omap list_omap]. by rewrite IH.
  - apply dec_stable in Heq. by rewrite (cohereTurn_system msg Heq).
Qed.

(** The loop over the messages before the last one: none of them is at
    index [total - 1], so each user or assistant turn goes to the history
    and the message is left as it is. *)
Lemma foldMessages_prior total (prior rest : list Message) :
  ∀ i message chatHistory,
    i + Z.of_nat (length prior) <= total - 1 →
    Cohere.foldMessages total i (prior ++ rest) (message, chatHistory)
    = Cohere.foldMessages total (i + Z.of_nat (length prior)) rest
        (message, chatHistory ++ cohereHistory prior).
Proof.
  induction prior as [|msg prior IH]; intros i message chatHistory Hi.
  - simpl. rewrite Z.add_0_r. by rewrite (right_id_L [] (++)).
  - simpl in Hi. cbn [app Cohere.foldMessages].
    replace (i + Z.of_nat (length (msg :: prior)))
      with ((i + 1) + Z.of_nat (length prior)) by (simpl; lia).
    unfold cohereHistory. cbn [omap list_omap]. unfold cohereTurn at 1.
    destruct (decide (Role msg = RoleSystem)) as [Hsys|Hsys].
    + rewrite Hsys. rewrite !decide_False by done.
      rewrite IH by lia. done.
    + destruct (decide (Role msg = RoleUser)) as [Hu|Hu].
      * rewrite decide_False by lia. rewrite IH by lia.
        by rewrite <- (assoc_L (++)).
      * destruct (decide (Role msg = RoleAssistant)) as [Ha|Ha].
        -- rewrite IH by lia. by rewrite <- (assoc_L (++)).
        -- by rewrite IH by lia.
Qed.

Lemma foldMessages_last_user (prior : list Message) (content name : string) :
  let msgs := prior ++ [mkMessage RoleUser content name] in
  Cohere.foldMessages (Z.of_nat (length msgs)) 0 msgs ("", [])
  = (content, cohereHistory prior).
Proof.
  intros msgs. subst msgs.
  rewrite foldMessages_prior by (rewrite length_app; simpl; lia).
  cbn [Cohere.foldMessages Role Content].
  rewrite decide_False by done. rewrite decide_True by done.
  rewrite decide_True by (rewrite length_app; simpl; lia).
  done.
Qed.

(** C6, as stated, fails.  For the request [{user,"a"},{assistant,"b"}]
    the latest user message is "a", but the payload's [message] is the
    empty string and "a" is sent as a turn of [chat_history].  And for the
    request [{user,"c"}] with [ExtraParams["message"]] set, the payload's
    [message] is the caller's entry, not "c". *)
Lemma Cohere_message_is_not_latest_user :
  let request :=
    with_Messages
      [mkMessage RoleUser "a" ""; mkMessage RoleAssistant "b" ""]
      emptyRequest in
  let overridden :=
    with_ExtraParams {[ "message" := VString "from extra" ]}
      (BuildSimpleRequest "c") in
  latestUserContent (Messages request) = Some "a"
  ∧ Cohere.buildPayload exampleCohere request !! "message"
    = Some (VString "")
  ∧ Cohere.buildPayload exampleCohere request !! "chat_history"
    = Some (VList [Cohere.turn "USER" "a"; Cohere.turn "CHATBOT" "b"])
  ∧ latestUserContent (Messages overridden) = Some "c"
  ∧ Cohere.buildPayload exampleCohere overridden !! "message"
    = Some (VString "from extra").
Proof. vm_compute. repeat split; reflexivity. Qed.

(** C6, amended.  For every request whose last message is a user message
    and whose [ExtraParams] has no ["message"] and no ["chat_history"]
    entry: the payload's [message] is the content of that last message;
    every earlier user turn appears in [chat_history] with role [USER] and
    every earlier assistant turn with role [CHATBOT], in their original
    order; system messages (and messages of any other role) are dropped;
    and [chat_history] is left out when no turn remains. *)
Theorem Cohere_payload_turns (c : Cohere.cohereClient) (request : Request)
    (prior : list Message) (content name : string) :
  Messages request = prior ++ [mkMessage RoleUser content name] →
  ExtraParams request !! "message" = None →
  ExtraParams request !! "chat_history" = None →
  Cohere.buildPayload c request !! "message" = Some (VString content)
  ∧ Cohere.buildPayload c request !! "chat_history"
    = (if decide (cohereHistory prior = []) then None
       else Some (VList (cohereHistory prior)))
  ∧ cohereHistory prior
    = cohereHistory (filter (λ msg, Role msg ≠ RoleSystem) prior).
Proof.
  intros Hmsgs Hmessage Hhistory. unfold Cohere.buildPayload.
  rewrite Hmsgs, foldMessages_last_user.
  split; [| split].
  - payload_lookup. unfold overlay. rewrite Hmessage.
    case_decide; payload_lookup; done.
  - payload_lookup. unfold overlay. rewrite Hhistory.
    destruct (cohereHistory prior) as [|t ts] eqn:Hh.
    + rewrite decide_False by (simpl; lia). rewrite decide_True by done.
      by payload_lookup.
    + rewrite decide_True by (simpl; lia). rewrite decide_False by done.
      by payload_lookup.
  - symmetry. apply cohereHistory_drops_system.
Qed.

(** The scenario of the specification: history
    [{user,"a"},{assistant,"b"}] plus the new user message "c". *)
Lemma Cohere_payload_turns_witness :
  let request :=
    BuildChatRequest
      [mkMessage RoleUser "a" ""; mkMessage RoleAssistant "b" ""] "c" in
  Cohere.buildPayload exampleCohere request !! "message"
  = Some (VString "c")
  ∧ Cohere.buildPayload exampleCohere request !! "chat_history"
    = Some (VList [Cohere.turn "USER" "a"; Cohere.turn "CHATBOT" "b"]).
Proof.
  intros request.
  destruct (Cohere_payload_turns exampleCohere request
              [mkMessage RoleUser "a" ""; mkMessage RoleAssistant "b" ""]
              "c" "" eq_refl eq_refl eq_refl) as (Hm & Hh & _).
  split; [exact Hm | exact Hh].
Defined.

(* ===================================================================== *)
(** * The factory *)
(* ===================================================================== *)

(** [NewClient] routes the four provider tags it knows to their
    constructors - OpenAI and DeepSeek to the same one - and refuses every
    other tag. *)
Lemma NewClient_routes (config : Config) :
  (Provider config = ProviderOpenAI ∨ Provider config = ProviderDeepSeek →
   NewClient config = upcast OpenAIClient (OpenAI.newOpenAIClient config))
  ∧ (Provider config = ProviderQwen →
     NewClient config = upcast QwenClient (Qwen.newQwenClient config))
  ∧ (Provider config = ProviderAzure →
     NewClient config = upcast AzureClient (Azure.newAzureClient config))
  ∧ (Provider config ∉ [ProviderOpenAI; ProviderDeepSeek; ProviderQwen;
                         ProviderAzure] →
     NewClient config = Err (ErrUnsupportedProvider (Provider config))).
Proof.
  unfold NewClient, NewOpenAICompatibleClient, NewQwenClient, NewAzureClient.
  repeat split.
  - intros H. by rewrite decide_True.
  - intros H. rewrite H. reflexivity.
  - intros H. rewrite H. reflexivity.
  - intros H. rewrite !not_elem_of_cons in H.
    destruct H as (H1 & H2 & H3 & H4 & _).
    rewrite decide_False by (intros [?|?]; done).
    by rewrite !decide_False.
Qed.

(** The constructors succeed exactly under their preconditions, and keep
    the provider tag and the key they were given. *)
Lemma newOpenAIClient_Ok (config : Config) :
  APIKey config ≠ "" →
  ∃ c, OpenAI.newOpenAIClient config = Ok c
       ∧ Provider (OpenAI.config c) = Provider config
       ∧ APIKey (OpenAI.config c) = APIKey config.
Proof.
  intros Hkey. unfold OpenAI.newOpenAIClient, defaultTimeout.
  rewrite decide_False by done. eexists. split; [reflexivity |].
  repeat case_decide; done.
Qed.

Lemma newQwenClient_Ok (config : Config) :
  APIKey config ≠ "" →
  ∃ c, Qwen.newQwenClient config = Ok c
       ∧ Provider (Qwen.config c) = Provider config
       ∧ APIKey (Qwen.config c) = APIKey config.
Proof.
  intros Hkey. unfold Qwen.newQwenClient, defaultTimeout.
  rewrite decide_False by done. eexists. split; [reflexivity |].
  repeat case_decide; done.
Qed.

Lemma newAzureClient_Ok (config : Config) :
  APIKey config ≠ "" → BaseURL config ≠ "" →
  strings_Contains (BaseURL config) "/deployments/" = true →
  ∃ c, Azure.newAzureClient config = Ok c
       ∧ Provider (Azure.config c) = Provider config
       ∧ APIKey (Azure.config c) = APIKey config.
Proof.
  intros Hkey Hurl Hdep. unfold Azure.newAzureClient, defaultTimeout.
  rewrite !decide_False by done. rewrite Hdep. simpl.
  eexists. split; [reflexivity |]. repeat case_decide; done.
Qed.

Lemma newCohereClient_Ok (config : Config) :
  APIKey config ≠ "" →
  ∃ c, Cohere.newCohereClient config = Ok c
       ∧ Provider (Cohere.config c) = Provider config
       ∧ APIKey (Cohere.config c) = APIKey config.
Proof.
  intros Hkey. unfold Cohere.newCohereClient, defaultTimeout.
  rewrite decide_False by done. eexists. split; [reflexivity |].
  repeat case_decide; done.
Qed.

(** With an empty key each of the four routed providers fails with a
    configuration error. *)
Lemma NewClient_empty_key_routed (config : Config) :
  APIKey config = "" →
  Provider config ∈ [ProviderOpenAI; ProviderDeepSeek; ProviderQwen;
                     ProviderAzure] →
  NewClient config = Err ErrAPIKeyRequired.
Proof.
  intros Hkey Hin.
  destruct (NewClient_routes config) as (Ho & Hq & Ha & _).
  rewrite !elem_of_cons in Hin.
  destruct Hin as [H|[H|[H|[H|H]]]].
  - rewrite Ho by auto. unfold OpenAI.newOpenAIClient.
    by rewrite decide_True.
  - rewrite Ho by auto. unfold OpenAI.newOpenAIClient.
    by rewrite decide_True.
  - rewrite Hq by done. unfold Qwen.newQwenClient. by rewrite decide_True.
  - rewrite Ha by done. unfold Azure.newAzureClient. by rewrite decide_True.
  - by apply elem_of_nil in H.
Qed.

Lemma NewClient_cohere (config : Config) :
  Provider config = ProviderCohere →
  NewClient config = Err (ErrUnsupportedProvider ProviderCohere).
Proof.
  intros H. destruct (NewClient_routes config) as (_ & _ & _ & Hother).
  rewrite Hother; rewrite H; [done |].
  rewrite !not_elem_of_cons. repeat split; try done. apply not_elem_of_nil.
Qed.

(** C1, at the input where the code departs from it: the configuration of
    [TestCohereEmbedding].  [NewClient] has no case for the Cohere tag and
    answers with the unsupported-provider error, although the Cohere
    constructor accepts the same configuration. *)
Theorem NewClient_cohere_unsupported :
  let config :=
    mkConfig ProviderCohere "co-test" "https://api.cohere.ai/v1"
      (30 * time_Second) "embed-multilingual-v3.0" None None None None ∅ in
  NewClient config = Err (ErrUnsupportedProvider "cohere")
  ∧ Error (ErrUnsupportedProvider "cohere") = "unsupported LLM provider: cohere"
  ∧ Cohere.newCohereClient config
    = Ok (Cohere.mk config (mkHttpClient (30 * time_Second))).
Proof. repeat split; reflexivity. Qed.

(** C4, at the input where the code departs from it: the Cohere tag with
    an empty key.  [NewClient] answers with the unsupported-provider error,
    not with the configuration error that the Cohere constructor itself
    gives for the empty key. *)
Theorem NewClient_cohere_empty_key :
  let config := exampleConfig ProviderCohere "" in
  NewClient config = Err (ErrUnsupportedProvider "cohere")
  ∧ kind (ErrUnsupportedProvider "cohere") = UnsupportedProviderError
  ∧ Cohere.newCohereClient config = Err ErrAPIKeyRequired
  ∧ kind ErrAPIKeyRequired = ConfigurationError.
Proof. repeat split; reflexivity. Qed.

(* ===================================================================== *)
(** * Embeddings *)
(* ===================================================================== *)

Lemma implemented_bind {A B} (m : Call A) (k : A → Call B) :
  implemented m → (∀ a, implemented (k a)) → implemented (m ≫= k).
Proof.
  intros Hm Hk e. destruct m as [t [a|e']]; simpl.
  - specialize (Hk a e). destruct (k a) as [t' r]. exact Hk.
  - intros [= <-]. by apply (Hm e').
Qed.

Lemma implemented_try {A} (o : outcome A) (wrap : string → error) :
  (∀ cause, kind (wrap cause) ≠ UnsupportedOperationError) →
  implemented (try o wrap).
Proof. intros Hw e. destruct o; simpl; [done |]. intros [= <-]. apply Hw. Qed.

Lemma implemented_post env noun reply api url headers payload :
  implemented (post env noun reply api url headers payload).
Proof.
  unfold post. apply implemented_bind; [by apply implemented_try |].
  intros body e. destruct (http_NewRequest env "POST" url); simpl.
  - by intros [= <-].
  - destruct (http_Do env _); simpl; try by intros [= <-].
    case_decide; simpl; [by intros [= <-] | done].
Qed.

Lemma Cohere_CreateEmbedding_implemented env c request :
  implemented (Cohere.CreateEmbedding env c request).
Proof.
  unfold Cohere.CreateEmbedding.
  apply implemented_bind; [apply implemented_post |]. intros body.
  apply implemented_bind; [by apply implemented_try |]. intros apiResp e.
  case_decide; simpl; [by intros [= <-] | done].
Qed.

Lemma orderByIndex_error n data acc e :
  OpenAI.orderByIndex n data acc = Err e → kind e = DecodeError.
Proof.
  revert acc. induction data as [|d data IH]; intros acc; simpl; [done |].
  unfold OpenAI.placeEmbedding. case_decide; [apply IH |].
  by intros [= <-].
Qed.

Lemma OpenAI_CreateEmbedding_implemented env c request :
  implemented (OpenAI.CreateEmbedding env c request).
Proof.
  unfold OpenAI.CreateEmbedding.
  apply implemented_bind; [apply implemented_post |]. intros body.
  apply implemented_bind; [by apply implemented_try |]. intros apiResp e.
  destruct (embed_Data apiResp) as [|d data]; [by intros [= <-] |].
  destruct (OpenAI.orderByIndex _ _ _) as [embeddings|e'] eqn:Ho; [done |].
  intros [= <-]. by rewrite (orderByIndex_error _ _ _ _ Ho).
Qed.

(** C2.  On the Qwen adapter and on the Azure adapter [CreateEmbedding]
    fails with the unsupported-operation error for every environment and
    every request, and hands no request to the HTTP client.  On the
    OpenAI-compatible adapter and on the Cohere adapter it is an
    implemented mapping: it never fails with the unsupported-operation
    error, and against a stub endpoint that answers 200 with one vector it
    sends one POST and returns that vector. *)
Theorem CreateEmbedding_support :
  (∀ env c request,
     sent (Qwen.CreateEmbedding env c request) = []
     ∧ fails_with UnsupportedOperationError
         (returned (Qwen.CreateEmbedding env c request)))
  ∧ (∀ env c request,
       sent (Azure.CreateEmbedding env c request) = []
       ∧ fails_with UnsupportedOperationError
           (returned (Azure.CreateEmbedding env c request)))
  ∧ (∀ env c request, implemented (OpenAI.CreateEmbedding env c request))
  ∧ (∀ env c request, implemented (Cohere.CreateEmbedding env c request))
  ∧ (let request := mkEmbeddingRequest ["Hello, world!"] None in
     ∃ sent_request response,
       OpenAI.CreateEmbedding oneVectorEnv exampleOpenAI request
       = ([sent_request], Ok response)
       ∧ http_Method sent_request = "POST"
       ∧ Embeddings response = [[0.5%float]])
  ∧ (let request := mkEmbeddingRequest ["Hello, world!"] None in
     ∃ sent_request response,
       Cohere.CreateEmbedding oneVectorEnv exampleCohere request
       = ([sent_request], Ok response)
       ∧ http_URL sent_request = "https://api.cohere.ai/v1/embed"
       ∧ Embeddings response = [[0.5%float]]).
Proof.
  split; [by intros | split; [by intros |]].
  split; [apply OpenAI_CreateEmbedding_implemented |].
  split; [apply Cohere_CreateEmbedding_implemented |].
  split; do 2 eexists; vm_compute; repeat split; reflexivity.
Qed.

(** Success of the Cohere mapping hands on the vectors the reply decoded
    to, at least one of them; the input is not consulted. *)
Lemma Cohere_CreateEmbedding_Ok env c request response :
  returned (Cohere.CreateEmbedding env c request) = Ok response →
  ∃ body apiResp,
    json_Unmarshal_CohereEmbed env body = Done apiResp
    ∧ Embeddings response = embed_Embeddings apiResp
    ∧ Embeddings response ≠ [].
Proof.
  unfold Cohere.CreateEmbedding.
  destruct (post _ _ _ _ _ _ _) as [t [body|e]]; simpl; [| done].
  destruct (json_Unmarshal_CohereEmbed env body) as [apiResp|cause] eqn:Hd;
    simpl; [| done].
  case_decide as Hlen; simpl; [done |].
  intros [= <-]. exists body, apiResp. simpl. split; [done |].
  split; [done |]. intros Hnil. by rewrite Hnil in Hlen.
Qed.

(** A reply with a status in 200..299 whose body decodes to zero vectors
    is an empty-result error. *)
Lemma Cohere_CreateEmbedding_empty env c request status body apiResp :
  (∀ payload, ∃ encoded, json_Marshal env payload = Done encoded) →
  (∀ url, http_NewRequest env "POST" url = None) →
  (∀ req, http_Do env req = Replied status body) →
  200 <= status < 300 →
  json_Unmarshal_CohereEmbed env body = Done apiResp →
  embed_Embeddings apiResp = [] →
  returned (Cohere.CreateEmbedding env c request) = Err ErrNoEmbeddings
  ∧ kind ErrNoEmbeddings = EmptyResultError.
Proof.
  intros Hmarshal Hnew Hdo Hstatus Hdecode Hempty.
  split; [| done]. unfold Cohere.CreateEmbedding, post.
  match goal with |- context [json_Marshal env ?p] =>
    destruct (Hmarshal p) as [encoded ->] end.
  simpl. rewrite Hnew, Hdo.
  rewrite (decide_False (P := status < 200 ∨ status >= 300)) by lia.
  simpl. rewrite Hdecode. simpl. by rewrite Hempty.
Qed.

(** C3, at the input where the code departs from it: two input texts, and
    a 200 reply whose body holds a single vector.  The call succeeds and
    returns one embedding for two inputs. *)
Theorem Cohere_CreateEmbedding_length_mismatch :
  let request := mkEmbeddingRequest ["a"; "b"] None in
  ∃ response,
    returned (Cohere.CreateEmbedding oneVectorEnv exampleCohere request)
    = Ok response
    ∧ http_Do oneVectorEnv
        (mkHttpRequest "POST" "https://api.cohere.ai/v1/embed"
           [("Content-Type", "application/json");
            ("Authorization", "Bearer co-test")] "{}")
      = Replied 200 oneVectorBody
    ∧ length (emb_Input request) = 2%nat
    ∧ length (Embeddings response) = 1%nat.
Proof. eexists. vm_compute. repeat split; reflexivity. Qed.

(* ===================================================================== *)
(** * Further properties: chat history and request builders *)
(* ===================================================================== *)

(** X1.  [Truncate] panics exactly on a negative [n]: for [n >= 0] it
    returns normally on every history, and for [n < 0] the slice
    expression is out of range on every history, the empty one included. *)
Theorem Truncate_panics_iff_negative (h : ChatHistory) (n : Z) :
  Truncate n h = None ↔ n < 0.
Proof.
  unfold Truncate, slice_from. destruct h as [msgs]; simpl.
  case_decide as Hlen.
  - case_decide as Hlow; simpl; split; try done; lia.
  - split; [done | lia].
Qed.

Lemma lastN_lastN {A} (n m : nat) (l : list A) :
  lastN m (lastN n l) = lastN (Nat.min n m) l.
Proof.
  unfold lastN. rewrite length_drop, drop_drop. f_equal. lia.
Qed.

(** X2.  Truncations compose: for [n, m >= 0], truncating to [n] and then
    to [m] is truncating to the smaller of the two; in particular
    truncating twice to the same [n] is truncating once. *)
Theorem Truncate_Truncate (h : ChatHistory) (n m : Z) :
  0 <= n → 0 <= m →
  Truncate n h ≫= Truncate m = Truncate (Z.min n m) h
  ∧ Truncate n h ≫= Truncate n = Truncate n h.
Proof.
  intros Hn Hm.
  assert (∀ k, 0 <= k →
            Truncate n h ≫= Truncate k = Truncate (Z.min n k) h) as Hgen.
  { intros k Hk. rewrite !Truncate_lastN by lia. simpl.
    rewrite Truncate_lastN by lia. simpl. rewrite lastN_lastN.
    by rewrite Z2Nat.inj_min. }
  split; [by apply Hgen |].
  rewrite Hgen by done. by rewrite Z.min_id.
Qed.

Lemma Truncate_Truncate_witness :
  let a := mkMessage RoleSystem "s" "" in
  let b := mkMessage RoleUser "u" "" in
  let c := mkMessage RoleAssistant "a" "" in
  Truncate 2 (mkChatHistory [a; b; c]) ≫= Truncate 1
  = Some (mkChatHistory [c])
  ∧ Truncate 1 (mkChatHistory [a; b; c]) = Some (mkChatHistory [c]).
Proof.
  intros a b c.
  destruct (Truncate_Truncate (mkChatHistory [a; b; c]) 2 1
              ltac:(lia) ltac:(lia)) as [H _].
  split; [rewrite H |]; reflexivity.
Defined.

(** X3.  [GetLastMessage] is the last element of [GetMessages], absent
    exactly when the history is empty; after [AddMessage] it is the
    message just added, and [AddMessage] extends the sequence by that one
    message at the end; after [Clear] there is none. *)
Theorem GetLastMessage_last (h : ChatHistory) :
  GetLastMessage h = last (GetMessages h)
  ∧ (GetLastMessage h = None ↔ GetMessages h = [])
  ∧ (∀ role content,
       GetMessages (AddMessage role content h)
       = GetMessages h ++ [mkMessage role content ""]
       ∧ GetLastMessage (AddMessage role content h)
         = Some (mkMessage role content ""))
  ∧ GetLastMessage (Clear h) = None
  ∧ GetMessages (Clear h) = [].
Proof.
  assert (∀ h', GetLastMessage h' = last (GetMessages h')) as Hlast.
  { intros [msgs]. unfold GetLastMessage, GetMessages; simpl.
    rewrite last_lookup. case_decide as Hlen.
    - by destruct msgs.
    - f_equal. lia. }
  split; [apply Hlast |]. split; [| split; [| done]].
  - rewrite Hlast. apply last_None.
  - intros role content. split; [done |].
    rewrite Hlast. unfold AddMessage, GetMessages; simpl.
    apply last_snoc.
Qed.

(** X4.  The three package-level helpers build the same requests where
    they overlap: [GenerateSimple] is [GenerateWithHistory] on the empty
    history with no system prompt, and [GenerateWithSystemPrompt] with a
    non-empty prompt is [GenerateWithHistory] on the empty history with
    that prompt.  With the empty prompt they differ:
    [GenerateWithSystemPrompt] still sends a system message (with empty
    content), [GenerateWithHistory] sends none. *)
Theorem convenience_functions_agree env (client : Client)
    (userMessage systemPrompt : string) :
  systemPrompt ≠ "" →
  GenerateSimple env client userMessage
  = GenerateWithHistory env client (mkChatHistory []) userMessage ""
  ∧ GenerateWithSystemPrompt env client systemPrompt userMessage
    = GenerateWithHistory env client (mkChatHistory []) userMessage
        systemPrompt
  ∧ Messages (BuildRequestWithSystemPrompt "" userMessage)
    = [mkMessage RoleSystem "" ""; mkMessage RoleUser userMessage ""]
  ∧ Messages (historyRequest (mkChatHistory []) userMessage "")
    = [mkMessage RoleUser userMessage ""].
Proof.
  intros Hs. split; [done |]. split; [| done].
  unfold GenerateWithSystemPrompt, GenerateWithHistory, historyRequest.
  by rewrite decide_True by done.
Qed.

Lemma convenience_functions_agree_witness :
  GenerateWithSystemPrompt rateLimitedEnv (OpenAIClient exampleOpenAI)
    "You are helpful" "Hello"
  = GenerateWithHistory rateLimitedEnv (OpenAIClient exampleOpenAI)
      (mkChatHistory []) "Hello" "You are helpful".
Proof.
  exact (proj1 (proj2 (convenience_functions_agree rateLimitedEnv
                         (OpenAIClient exampleOpenAI) "Hello"
                         "You are helpful" ltac:(discriminate)))).
Defined.

(* ===================================================================== *)
(** * Further properties: constructors and factory *)
(* ===================================================================== *)

Lemma String_append_cons (x : ascii) (a c : string) :
  String x a +:+ c = String x (a +:+ c).
Proof. reflexivity. Qed.

Lemma String_prefix_app (a b : string) :
  String.prefix a b = true ↔ ∃ c, b = a +:+ c.
Proof.
  revert b. induction a as [|x a IH]; intros b; simpl.
  - destruct b; split; eauto.
  - destruct b as [|y b]; simpl.
    + split; [done | by intros [c Hc]].
    + destruct (ascii_dec x y) as [->|Hne].
      * rewrite IH.
        split; intros [c Hc]; exists c; rewrite String_append_cons in *;
          congruence.
      * split; [done |]. intros [c Hc]. rewrite String_append_cons in Hc.
        congruence.
Qed.

Lemma strings_Contains_unfold (s substr : string) :
  strings_Contains s substr
  = if String.prefix substr s then true
    else match s with
         | EmptyString => false
         | String _ s' => strings_Contains s' substr
         end.
Proof. by destruct s. Qed.

(** [strings_Contains] holds exactly of the strings that have the
    substring somewhere inside. *)
Lemma strings_Contains_app (s substr : string) :
  strings_Contains s substr = true
  ↔ ∃ pre post, s = pre +:+ substr +:+ post.
Proof.
  split.
  - induction s as [|x s IH]; rewrite strings_Contains_unfold;
      destruct (String.prefix substr _) eqn:Hp.
    + apply String_prefix_app in Hp as [c Hc]. by exists "", c.
    + done.
    + apply String_prefix_app in Hp as [c Hc]. by exists "", c.
    + intros H. destruct (IH H) as (pre & post & ->).
      by exists (String x pre), post.
  - intros (pre & post & ->). induction pre as [|x pre IH].
    + change ("" +:+ substr +:+ post) with (substr +:+ post).
      rewrite strings_Contains_unfold.
      assert (String.prefix substr (substr +:+ post) = true) as ->
        by (apply String_prefix_app; by exists post).
      done.
    + rewrite String_append_cons, strings_Contains_unfold.
      by destruct (String.prefix _ _).
Qed.

(** X5.  The Azure constructor accepts a configuration exactly when the
    key is non-empty and the base URL has ["/deployments/"] somewhere
    inside.  Every refusal is a configuration error, decided in this
    order: the empty key first (whatever the URL), then the empty URL,
    then the URL without the deployment segment. *)
Theorem newAzureClient_accepts (config : Config) :
  ((∃ c, Azure.newAzureClient config = Ok c)
   ↔ APIKey config ≠ ""
     ∧ ∃ pre post, BaseURL config = pre +:+ "/deployments/" +:+ post)
  ∧ (∀ e, Azure.newAzureClient config = Err e →
       kind e = ConfigurationError
       ∧ e = (if decide (APIKey config = "") then ErrAPIKeyRequired
              else if decide (BaseURL config = "")
              then ErrAzureBaseURLRequired
              else ErrAzureDeploymentMissing)).
Proof.
  rewrite <- strings_Contains_app. unfold Azure.newAzureClient.
  destruct (decide (APIKey config = "")) as [Hk|Hk].
  { split; [| by intros e [= <-]].
    split; [by intros [c Hc] | by intros [? _]]. }
  destruct (decide (BaseURL config = "")) as [Hu|Hu].
  { split; [| by intros e [= <-]].
    split; [by intros [c Hc] |]. intros [_ Hc]. by rewrite Hu in Hc. }
  destruct (strings_Contains (BaseURL config) "/deployments/"); simpl.
  - split; [| done]. split; [done | eauto].
  - split; [| by intros e [= <-]].
    split; [by intros [c Hc] | by intros [_ ?]].
Qed.


(** Reduces the projections of a configuration given by its fields. *)
Ltac proj_norm :=
  cbn beta iota delta
    [with_BaseURL with_Timeout with_DefaultModel
     BaseURL Timeout DefaultModel Provider APIKey DefaultTemperature
     DefaultMaxTokens DefaultTopP DefaultTopK ExtraConfig] in *.

(** Resolves in [H] the tests that the context decides. *)
Ltac decided_in H :=
  repeat match type of H with
  | context [decide ?P] =>
      first [ rewrite (decide_True (P := P)) in H by done
            | rewrite (decide_False (P := P)) in H by done ]
  end.

(** Runs a constructor, one completion step after the other, once the
    tests on the given fields are decided. *)
Ltac run_constructor H :=
  proj_norm; decided_in H; proj_norm; cbv zeta in H;
  unfold defaultTimeout in H; proj_norm; decided_in H; proj_norm;
  decided_in H; proj_norm.

Ltac split_on P := destruct (decide P); [try subst |].

(** On a completed configuration each constructor changes nothing. *)
Lemma newOpenAIClient_normal prov key url tmo model dt dm dp dk ec :
  key ≠ "" → url ≠ "" → tmo ≠ 0 → model ≠ "" →
  OpenAI.newOpenAIClient (mkConfig prov key url tmo model dt dm dp dk ec)
  = Ok (OpenAI.mk (mkConfig prov key url tmo model dt dm dp dk ec)
          (mkHttpClient tmo)).
Proof.
  intros Hk Hu Ht Hm.
  set (config := mkConfig prov key url tmo model dt dm dp dk ec).
  assert (H : OpenAI.newOpenAIClient config = OpenAI.newOpenAIClient config) by reflexivity.
  subst config.
  unfold OpenAI.newOpenAIClient in H at 2. run_constructor H. exact H.
Qed.

Lemma newQwenClient_normal prov key url tmo model dt dm dp dk ec :
  key ≠ "" → url ≠ "" → tmo ≠ 0 → model ≠ "" →
  Qwen.newQwenClient (mkConfig prov key url tmo model dt dm dp dk ec)
  = Ok (Qwen.mk (mkConfig prov key url tmo model dt dm dp dk ec)
          (mkHttpClient tmo)).
Proof.
  intros Hk Hu Ht Hm.
  set (config := mkConfig prov key url tmo model dt dm dp dk ec).
  assert (H : Qwen.newQwenClient config = Qwen.newQwenClient config) by reflexivity.
  subst config.
  unfold Qwen.newQwenClient in H at 2. run_constructor H. exact H.
Qed.

Lemma newAzureClient_normal prov key url tmo model dt dm dp dk ec :
  key ≠ "" → url ≠ "" → strings_Contains url "/deployments/" = true →
  tmo ≠ 0 → model ≠ "" →
  Azure.newAzureClient (mkConfig prov key url tmo model dt dm dp dk ec)
  = Ok (Azure.mk (mkConfig prov key url tmo model dt dm dp dk ec)
          (mkHttpClient tmo)).
Proof.
  intros Hk Hu Hd Ht Hm.
  set (config := mkConfig prov key url tmo model dt dm dp dk ec).
  assert (H : Azure.newAzureClient config = Azure.newAzureClient config) by reflexivity.
  subst config.
  unfold Azure.newAzureClient in H at 2. proj_norm. decided_in H.
  rewrite Hd in H. cbn [negb] in H. run_constructor H. exact H.
Qed.

Lemma newCohereClient_normal prov key url tmo model dt dm dp dk ec :
  key ≠ "" → url ≠ "" → tmo ≠ 0 → model ≠ "" →
  Cohere.newCohereClient (mkConfig prov key url tmo model dt dm dp dk ec)
  = Ok (Cohere.mk (mkConfig prov key url tmo model dt dm dp dk ec)
          (mkHttpClient tmo)).
Proof.
  intros Hk Hu Ht Hm.
  set (config := mkConfig prov key url tmo model dt dm dp dk ec).
  assert (H : Cohere.newCohereClient config = Cohere.newCohereClient config) by reflexivity.
  subst config.
  unfold Cohere.newCohereClient in H at 2. run_constructor H. exact H.
Qed.

Lemma newOpenAIClient_fixpoint config c :
  OpenAI.newOpenAIClient config = Ok c →
  normalised (OpenAI.config c) ∧ same_settings (OpenAI.config c) config
  ∧ keeps_given config (OpenAI.config c)
  ∧ client_Timeout (OpenAI.httpClient c) = Timeout (OpenAI.config c)
  ∧ APIKey (OpenAI.config c) ≠ ""
  ∧ OpenAI.newOpenAIClient (OpenAI.config c) = Ok c.
Proof.
  unfold normalised, same_settings, keeps_given.
  destruct config as [prov key url tmo model dt dm dp dk ec].
  intros H. unfold OpenAI.newOpenAIClient in H.
  split_on (key = ""); [by run_constructor H |].
  split_on (url = ""); (split_on (prov = ProviderOpenAI);
    [| split_on (prov = ProviderDeepSeek)]);
    (split_on (tmo = 0); (split_on (model = "");
      (run_constructor H; injection H as <-;
       cbn [OpenAI.config OpenAI.httpClient client_Timeout]; proj_norm;
       repeat split; try done;
       apply newOpenAIClient_normal; done))).
Qed.

Lemma newQwenClient_fixpoint config c :
  Qwen.newQwenClient config = Ok c →
  normalised (Qwen.config c) ∧ same_settings (Qwen.config c) config
  ∧ keeps_given config (Qwen.config c)
  ∧ client_Timeout (Qwen.httpClient c) = Timeout (Qwen.config c)
  ∧ APIKey (Qwen.config c) ≠ ""
  ∧ Qwen.newQwenClient (Qwen.config c) = Ok c.
Proof.
  unfold normalised, same_settings, keeps_given.
  destruct config as [prov key url tmo model dt dm dp dk ec].
  intros H. unfold Qwen.newQwenClient in H.
  split_on (key = ""); [by run_constructor H |].
  split_on (url = ""); (split_on (tmo = 0); (split_on (model = "");
    (run_constructor H; injection H as <-;
     cbn [Qwen.config Qwen.httpClient client_Timeout]; proj_norm;
     repeat split; try done;
     apply newQwenClient_normal; done))).
Qed.

Lemma newAzureClient_fixpoint config c :
  Azure.newAzureClient config = Ok c →
  normalised (Azure.config c) ∧ same_settings (Azure.config c) config
  ∧ keeps_given config (Azure.config c)
  ∧ client_Timeout (Azure.httpClient c) = Timeout (Azure.config c)
  ∧ APIKey (Azure.config c) ≠ ""
  ∧ Azure.newAzureClient (Azure.config c) = Ok c.
Proof.
  unfold normalised, same_settings, keeps_given.
  destruct config as [prov key url tmo model dt dm dp dk ec].
  intros H. unfold Azure.newAzureClient in H. proj_norm.
  split_on (key = ""); [by decided_in H |].
  split_on (url = ""); [by decided_in H |].
  decided_in H.
  destruct (strings_Contains url "/deployments/") eqn:Hd; [| done].
  cbn [negb] in H.
  split_on (tmo = 0); (split_on (model = "");
    (run_constructor H; injection H as <-;
     cbn [Azure.config Azure.httpClient client_Timeout]; proj_norm;
     repeat split; try done;
     apply newAzureClient_normal; done)).
Qed.

Lemma newCohereClient_fixpoint config c :
  Cohere.newCohereClient config = Ok c →
  normalised (Cohere.config c) ∧ same_settings (Cohere.config c) config
  ∧ keeps_given config (Cohere.config c)
  ∧ client_Timeout (Cohere.httpClient c) = Timeout (Cohere.config c)
  ∧ APIKey (Cohere.config c) ≠ ""
  ∧ Cohere.newCohereClient (Cohere.config c) = Ok c.
Proof.
  unfold normalised, same_settings, keeps_given.
  destruct config as [prov key url tmo model dt dm dp dk ec].
  intros H. unfold Cohere.newCohereClient in H.
  split_on (key = ""); [by run_constructor H |].
  split_on (url = ""); (split_on (tmo = 0); (split_on (model = "");
    (run_constructor H; injection H as <-;
     cbn [Cohere.config Cohere.httpClient client_Timeout]; proj_norm;
     repeat split; try done;
     apply newCohereClient_normal; done))).
Qed.

(** X6.  A client that [NewClient] returns holds a completed copy of the
    configuration: [GetConfig] has a non-empty base URL, a non-zero timeout
    and a non-empty default model; provider tag, key, sampling defaults
    and extra settings are the caller's; a URL, timeout or model the caller
    did fill in is kept; and the HTTP client's timeout is the configured
    one. *)
Theorem NewClient_completes_config (config : Config) (client : Client) :
  NewClient config = Ok client →
  normalised (Client_GetConfig client)
  ∧ same_settings (Client_GetConfig client) config
  ∧ keeps_given config (Client_GetConfig client)
  ∧ Client_timeout client = Timeout (Client_GetConfig client)
  ∧ APIKey (Client_GetConfig client) ≠ "".
Proof.
  unfold NewClient, NewOpenAICompatibleClient, NewQwenClient, NewAzureClient.
  repeat case_decide; [| | | done].
  - destruct (OpenAI.newOpenAIClient config) as [c|] eqn:Hc; [| done].
    intros [= <-]. destruct (newOpenAIClient_fixpoint _ _ Hc)
      as (? & ? & ? & ? & ? & _). done.
  - destruct (Qwen.newQwenClient config) as [c|] eqn:Hc; [| done].
    intros [= <-]. destruct (newQwenClient_fixpoint _ _ Hc)
      as (? & ? & ? & ? & ? & _). done.
  - destruct (Azure.newAzureClient config) as [c|] eqn:Hc; [| done].
    intros [= <-]. destruct (newAzureClient_fixpoint _ _ Hc)
      as (? & ? & ? & ? & ? & _). done.
Qed.

(** The configuration of [TestClientConfiguration]: no base URL given, a
    ten second timeout. *)
Lemma NewClient_completes_config_witness :
  let config :=
    mkConfig ProviderDeepSeek "test-key" "" (10 * time_Second)
      "deepseek-chat" None None None None ∅ in
  ∃ client,
    NewClient config = Ok client
    ∧ Provider (Client_GetConfig client) = ProviderDeepSeek
    ∧ APIKey (Client_GetConfig client) = "test-key"
    ∧ BaseURL (Client_GetConfig client) = "https://api.deepseek.com"
    ∧ Timeout (Client_GetConfig client) = 10 * time_Second
    ∧ Client_timeout client = 10 * time_Second.
Proof.
  intros config.
  destruct (NewClient config) as [client|] eqn:Hnew; [| discriminate Hnew].
  exists client. split; [reflexivity |].
  destruct (NewClient_completes_config config client Hnew)
    as (_ & (Hp & Hk & _) & (_ & Ht & _) & Hc & _).
  split; [exact Hp |]. split; [exact Hk |].
  assert (BaseURL (Client_GetConfig client) = "https://api.deepseek.com")
    as Hurl by (injection Hnew as <-; reflexivity).
  split; [exact Hurl |].
  assert (Timeout (Client_GetConfig client) = 10 * time_Second) as Htmo
    by (apply Ht; discriminate).
  split; [exact Htmo | by rewrite Hc].
Defined.

(** X7.  Construction is idempotent: building a client from the
    configuration an existing client reports gives that same client - for
    [NewClient], and likewise for the Cohere constructor. *)
Theorem NewClient_GetConfig_fixpoint (config : Config) (client : Client) :
  NewClient config = Ok client →
  NewClient (Client_GetConfig client) = Ok client
  ∧ (∀ cfg c, Cohere.newCohereClient cfg = Ok c →
              Cohere.newCohereClient (Cohere.GetConfig c) = Ok c).
Proof.
  intros Hnew. split.
  - revert Hnew.
    unfold NewClient, NewOpenAICompatibleClient, NewQwenClient,
      NewAzureClient.
    destruct (decide (Provider config = ProviderOpenAI
                      ∨ Provider config = ProviderDeepSeek)) as [Ho|Ho].
    { destruct (OpenAI.newOpenAIClient config) as [c|] eqn:Hc; [| done].
      intros [= <-]; simpl.
      destruct (newOpenAIClient_fixpoint _ _ Hc)
        as (_ & (Hp & _) & _ & _ & _ & Hfix).
      unfold OpenAI.GetConfig.
      rewrite decide_True by (by rewrite Hp). by rewrite Hfix. }
    destruct (decide (Provider config = ProviderQwen)) as [Hq|Hq].
    { destruct (Qwen.newQwenClient config) as [c|] eqn:Hc; [| done].
      intros [= <-]; simpl.
      destruct (newQwenClient_fixpoint _ _ Hc)
        as (_ & (Hp & _) & _ & _ & _ & Hfix).
      unfold Qwen.GetConfig. rewrite Hp, Hq. simpl. by rewrite Hfix. }
    destruct (decide (Provider config = ProviderAzure)) as [Ha|Ha]; [| done].
    destruct (Azure.newAzureClient config) as [c|] eqn:Hc; [| done].
    intros [= <-]; simpl.
    destruct (newAzureClient_fixpoint _ _ Hc)
      as (_ & (Hp & _) & _ & _ & _ & Hfix).
    unfold Azure.GetConfig. rewrite Hp, Ha. simpl. by rewrite Hfix.
  - intros cfg c Hc. by apply (newCohereClient_fixpoint cfg).
Qed.

Lemma NewClient_GetConfig_fixpoint_witness :
  let config := exampleConfig ProviderQwen "sk-qwen" in
  ∃ client,
    NewClient config = Ok client
    ∧ Client_GetConfig client
      = mkConfig ProviderQwen "sk-qwen"
          "https://dashscope-intl.aliyuncs.com/compatible-mode/v1"
          (30 * time_Second) "qwen3-next-80b-a3b-instruct" None None None
          None ∅
    ∧ NewClient (Client_GetConfig client) = Ok client.
Proof.
  intros config.
  destruct (NewClient config) as [client|] eqn:Hnew; [| discriminate Hnew].
  exists client. split; [reflexivity |].
  split; [injection Hnew as <-; reflexivity |].
  exact (proj1 (NewClient_GetConfig_fixpoint config client Hnew)).
Defined.

(** X8.  [NewClient] succeeds exactly for a provider tag among openai,
    deepseek, qwen and azure with a non-empty key and, for azure, a base
    URL containing ["/deployments/"].  A failure is an
    unsupported-provider error when the tag is none of the four - whatever
    the key - and a configuration error otherwise. *)
Theorem NewClient_succeeds_iff (config : Config) :
  let known :=
    [ProviderOpenAI; ProviderDeepSeek; ProviderQwen; ProviderAzure] in
  ((∃ client, NewClient config = Ok client)
   ↔ Provider config ∈ known ∧ APIKey config ≠ ""
     ∧ (Provider config = ProviderAzure →
        strings_Contains (BaseURL config) "/deployments/" = true))
  ∧ (∀ e, NewClient config = Err e →
       kind e = (if decide (Provider config ∈ known) then ConfigurationError
                 else UnsupportedProviderError)).
Proof.
  intros known. subst known.
  destruct (NewClient_routes config) as (Ho & Hq & Ha & Hother).
  destruct (decide (Provider config ∈
              [ProviderOpenAI; ProviderDeepSeek; ProviderQwen;
               ProviderAzure])) as [Hin|Hout].
  - assert (Hcase := Hin). rewrite !elem_of_cons in Hcase.
    destruct Hcase as [H|[H|[H|[H|H]]]]; [| | | | by apply elem_of_nil in H].
    + rewrite Ho by auto.
      destruct (OpenAI.newOpenAIClient config) as [c|e'] eqn:Hnew.
      * destruct (newOpenAIClient_fixpoint _ _ Hnew)
          as (_ & (_ & Hk & _) & _ & _ & Hne & _).
        split; [| done]. split; [| eauto]. intros _.
        split; [done |]. split; [by rewrite <- Hk | by rewrite H].
      * unfold OpenAI.newOpenAIClient in Hnew.
        destruct (decide (APIKey config = "")) as [Hk|Hk]; [| done].
        injection Hnew as <-.
        split; [| by intros e [= <-]].
        split; [by intros [? ?] | by intros (_ & ? & _)].
    + rewrite Ho by auto.
      destruct (OpenAI.newOpenAIClient config) as [c|e'] eqn:Hnew.
      * destruct (newOpenAIClient_fixpoint _ _ Hnew)
          as (_ & (_ & Hk & _) & _ & _ & Hne & _).
        split; [| done]. split; [| eauto]. intros _.
        split; [done |]. split; [by rewrite <- Hk | by rewrite H].
      * unfold OpenAI.newOpenAIClient in Hnew.
        destruct (decide (APIKey config = "")) as [Hk|Hk]; [| done].
        injection Hnew as <-.
        split; [| by intros e [= <-]].
        split; [by intros [? ?] | by intros (_ & ? & _)].
    + rewrite Hq by auto.
      destruct (Qwen.newQwenClient config) as [c|e'] eqn:Hnew.
      * destruct (newQwenClient_fixpoint _ _ Hnew)
          as (_ & (_ & Hk & _) & _ & _ & Hne & _).
        split; [| done]. split; [| eauto]. intros _.
        split; [done |]. split; [by rewrite <- Hk | by rewrite H].
      * unfold Qwen.newQwenClient in Hnew.
        destruct (decide (APIKey config = "")) as [Hk|Hk]; [| done].
        injection Hnew as <-.
        split; [| by intros e [= <-]].
        split; [by intros [? ?] | by intros (_ & ? & _)].
    + rewrite Ha by auto.
      destruct (Azure.newAzureClient config) as [c|e'] eqn:Hnew.
      * destruct (newAzureClient_fixpoint _ _ Hnew)
          as (_ & (_ & Hk & _) & _ & _ & Hne & _).
        split; [| done]. split; [| eauto]. intros _.
        split; [done |]. split; [by rewrite <- Hk |]. intros _.
        unfold Azure.newAzureClient in Hnew.
        destruct (decide (APIKey config = "")); [done |].
        destruct (decide (BaseURL config = "")); [done |].
        by destruct (strings_Contains (BaseURL config) "/deployments/").
      * unfold Azure.newAzureClient in Hnew.
        destruct (decide (APIKey config = "")) as [Hk|Hk].
        { injection Hnew as <-. split; [| by intros e [= <-]].
          split; [by intros [? ?] | by intros (_ & ? & _)]. }
        destruct (decide (BaseURL config = "")) as [Hu|Hu].
        { injection Hnew as <-. split; [| by intros e [= <-]].
          split; [by intros [? ?] |]. intros (_ & _ & Hd).
          specialize (Hd H). by rewrite Hu in Hd. }
        destruct (strings_Contains (BaseURL config) "/deployments/")
          eqn:Hd; [done |].
        injection Hnew as <-. split; [| by intros e [= <-]].
        split; [by intros [? ?] |]. intros (_ & _ & Hd'). by specialize (Hd' H).
  - rewrite Hother by done. split; [| by intros e [= <-]].
    split; [by intros [? ?] | by intros (? & _)].
Qed.

(* ===================================================================== *)
(** * Further properties: the round trip of Generate *)
(* ===================================================================== *)

(** Unfolds the [Generate] of the adapter at hand down to the outcomes of
    the environment. *)
Ltac generate_cases client :=
  destruct client as [c|c|c|c|c];
  unfold Client_Generate, OpenAI.Generate, Qwen.Generate,
    QwenLegacy.Generate, Azure.Generate, Cohere.Generate, post,
    Client_request, Client_endpoint, Client_headers, Client_api,
    Client_payload, bearer in *.

(** X9.  A [Generate] hands at most one request to the HTTP client, and
    which one is settled before any reply is seen: none when the payload
    cannot be encoded or the request object cannot be built; otherwise
    exactly one POST to the adapter's endpoint, with the JSON content type
    followed by the adapter's own headers ([Authorization: Bearer] and the
    key; for Qwen also [X-DashScope-SSE: disable]; for Azure [api-key] and
    the key instead) and the encoded payload as body - whatever the reply,
    so nothing is sent again after a failure. *)
Theorem Generate_sends_at_most_one env (client : Client) (request : Request) :
  sent (Client_Generate env client request)
  = match json_Marshal env (Client_payload client request) with
    | Failed _ => []
    | Done encoded =>
        match http_NewRequest env "POST" (Client_endpoint client) with
        | Some _ => []
        | None => [Client_request client encoded]
        end
    end.
Proof.
  generate_cases client;
    (destruct (json_Marshal env _) as [encoded|cause]; simpl; [| done]);
    (destruct (http_NewRequest env "POST" _); simpl; [done |]);
    (destruct (http_Do env _) as [cause|status cause|status body]; simpl;
       [done | done |]);
    (case_decide; simpl; [done |]).
  - destruct (json_Unmarshal_ChatCompletion env body) as [r|]; simpl;
      [| done]. unfold firstChoice. by destruct (Choices r).
  - destruct (json_Unmarshal_ChatCompletion env body) as [r|]; simpl;
      [| done]. unfold firstChoice. by destruct (Choices r).
  - by destruct (json_Unmarshal_QwenGeneration env body).
  - destruct (json_Unmarshal_ChatCompletion env body) as [r|]; simpl;
      [| done]. unfold firstChoice. by destruct (Choices r).
  - by destruct (json_Unmarshal_CohereChat env body).
Qed.

(** X10.  A reply with a status outside 200..299 makes every adapter's
    [Generate] fail with a remote-API error that carries the status and
    the body as received: the message is the adapter's prefix, the decimal
    status and the body text verbatim.  The body is not decoded. *)
Theorem Generate_status_error env (client : Client) (request : Request)
    (encoded : string) (status : Z) (body : string) :
  json_Marshal env (Client_payload client request) = Done encoded →
  http_NewRequest env "POST" (Client_endpoint client) = None →
  http_Do env (Client_request client encoded) = Replied status body →
  status < 200 ∨ status >= 300 →
  Client_Generate env client request
  = ([Client_request client encoded],
     Err (ErrAPI (Client_api client) status body))
  ∧ kind (ErrAPI (Client_api client) status body) = RemoteAPIError
  ∧ Error (ErrAPI (Client_api client) status body)
    = Client_api client +:+ " error " +:+ pretty status +:+ ": " +:+ body.
Proof.
  intros Hm Hn Hd Hs. split; [| done].
  generate_cases client; rewrite Hm; simpl; rewrite Hn, Hd;
    by rewrite (decide_True (P := status < 200 ∨ status >= 300)).
Qed.

Lemma Generate_status_error_witness :
  Client_Generate rateLimitedEnv (AzureClient exampleAzure)
    (BuildSimpleRequest "ping")
  = ([mkHttpRequest "POST"
        ("https://r.openai.azure.com/openai/deployments/gpt4"
           +:+ "/chat/completions?api-version=2023-12-01-preview")
        [("Content-Type", "application/json"); ("api-key", "az-test")]
        "{}"],
     Err (ErrAPI "Azure OpenAI API" 429 "rate limited"))
  ∧ Error (ErrAPI "Azure OpenAI API" 429 "rate limited")
    = "Azure OpenAI API error 429: rate limited".
Proof.
  destruct (Generate_status_error rateLimitedEnv (AzureClient exampleAzure)
              (BuildSimpleRequest "ping") "{}" 429 "rate limited"
              eq_refl eq_refl eq_refl ltac:(lia)) as (Hg & _ & He).
  split; [exact Hg | exact He].
Defined.

(** X11.  Failures before a reply, for every adapter: a payload that
    cannot be encoded and a request that cannot be built fail without any
    network call; a failed send (network failure, cancelled or expired
    context, timeout) and an unreadable body are transport errors, after
    the one request was sent. *)
Theorem Generate_fails_before_reply env (client : Client)
    (request : Request) :
  match json_Marshal env (Client_payload client request) with
  | Failed cause =>
      Client_Generate env client request
      = ([], Err (ErrMarshal "request" cause))
  | Done encoded =>
      match http_NewRequest env "POST" (Client_endpoint client) with
      | Some cause =>
          Client_Generate env client request
          = ([], Err (ErrCreateRequest "request" cause))
      | None =>
          match http_Do env (Client_request client encoded) with
          | DoFailed cause =>
              Client_Generate env client request
              = ([Client_request client encoded],
                 Err (ErrSend "request" cause))
              ∧ kind (ErrSend "request" cause) = TransportError
          | BodyUnreadable _ cause =>
              Client_Generate env client request
              = ([Client_request client encoded],
                 Err (ErrRead "response" cause))
              ∧ kind (ErrRead "response" cause) = TransportError
          | Replied _ _ => True
          end
      end
  end.
Proof.
  generate_cases client;
    (destruct (json_Marshal env _) as [encoded|cause]; simpl; [| done]);
    (destruct (http_NewRequest env "POST" _); simpl; [done |]);
    by destruct (http_Do env _).
Qed.

(** X12.  Success of the OpenAI-compatible, Azure and Qwen
    (OpenAI-compatible variant) adapters: the reply had a status in
    200..299 and decoded to at least one choice; content is the first
    choice's, later choices are not read; the token count is the reply's
    total and the response time the elapsed time.  OpenAI and Azure hand on
    the first choice's role and finish reason; Qwen always reports the
    assistant role and no finish reason. *)
Theorem Generate_first_choice env (client : Client) (request : Request)
    (response : Response) (text : string) :
  noChoicesText client = Some text →
  returned (Client_Generate env client request) = Ok response →
  ∃ encoded status body completion choice rest,
    sent (Client_Generate env client request)
    = [Client_request client encoded]
    ∧ http_Do env (Client_request client encoded) = Replied status body
    ∧ 200 <= status < 300
    ∧ json_Unmarshal_ChatCompletion env body = Done completion
    ∧ Choices completion = choice :: rest
    ∧ resp_Content response = choice_Content choice
    ∧ resp_TokensUsed response = Usage_TotalTokens completion
    ∧ resp_ResponseTime response = time_Since env
    ∧ match client with
      | QwenClient _ =>
          resp_Role response = RoleAssistant
          ∧ resp_FinishReason response = ""
      | _ =>
          resp_Role response = choice_Role choice
          ∧ resp_FinishReason response = choice_FinishReason choice
      end.
Proof.
  intros Htext.
  generate_cases client; try discriminate Htext;
    (destruct (json_Marshal env _) as [encoded|cause]; simpl; [| done]);
    (destruct (http_NewRequest env "POST" _); simpl; [done |]);
    (destruct (http_Do env _) as [cause|status cause|status body] eqn:Hdo;
       simpl; [done | done |]);
    (case_decide as Hstatus; simpl; [done |]);
    (destruct (json_Unmarshal_ChatCompletion env body) as [r|] eqn:Hdec;
       simpl; [| done]);
    unfold firstChoice;
    (destruct (Choices r) as [|choice rest] eqn:Hch; simpl; [done |]);
    intros [= <-]; exists encoded, status, body, r, choice, rest;
    repeat split; try done; lia.
Qed.

(** Two choices in the reply: the first one is the answer. *)
Lemma Generate_first_choice_witness :
  let completion :=
    mkChatCompletion
      [mkChatChoice "assistant" "pong" "stop";
       mkChatChoice "assistant" "other" "length"] 5 in
  let env := repliesEnv completion (mkCohereChat "" 0 0 "") in
  ∃ response,
    returned (Client_Generate env (OpenAIClient exampleOpenAI)
                (BuildSimpleRequest "ping")) = Ok response
    ∧ resp_Content response = "pong"
    ∧ resp_TokensUsed response = 5
    ∧ resp_FinishReason response = "stop".
Proof.
  intros completion env.
  destruct (returned (Client_Generate env (OpenAIClient exampleOpenAI)
                        (BuildSimpleRequest "ping")))
    as [response|] eqn:Hret; [| discriminate Hret].
  exists response. split; [reflexivity |].
  destruct (Generate_first_choice env (OpenAIClient exampleOpenAI)
              (BuildSimpleRequest "ping") response
              "no choices in LLM response" eq_refl Hret)
    as (encoded & status & body & r & choice & rest & _ & _ & _ & Hdec
        & Hch & Hcontent & Htokens & _ & _ & Hfinish).
  injection Hdec as <-. injection Hch as <- <-.
  rewrite Hcontent, Htokens, Hfinish. repeat split; reflexivity.
Defined.

(** X13.  A reply with a status in 200..299 that decodes to no choice at
    all is an error for the OpenAI-compatible, Azure and Qwen
    (OpenAI-compatible variant) adapters: an empty-result error with the
    adapter's own text, after the one request was sent. *)
Theorem Generate_no_choices env (client : Client) (request : Request)
    (text encoded : string) (status : Z) (body : string)
    (completion : ChatCompletion) :
  noChoicesText client = Some text →
  json_Marshal env (Client_payload client request) = Done encoded →
  http_NewRequest env "POST" (Client_endpoint client) = None →
  http_Do env (Client_request client encoded) = Replied status body →
  200 <= status < 300 →
  json_Unmarshal_ChatCompletion env body = Done completion →
  Choices completion = [] →
  Client_Generate env client request
  = ([Client_request client encoded], Err (ErrNoChoices text))
  ∧ kind (ErrNoChoices text) = EmptyResultError
  ∧ Error (ErrNoChoices text) = text.
Proof.
  intros Htext Hm Hn Hd Hs Hdec Hch. split; [| done].
  generate_cases client; try discriminate Htext;
    injection Htext as <-;
    rewrite Hm; simpl; rewrite Hn, Hd;
    rewrite (decide_False (P := status < 200 ∨ status >= 300)) by lia;
    simpl; rewrite Hdec; simpl; unfold firstChoice; by rewrite Hch.
Qed.

Lemma Generate_no_choices_witness :
  let env := repliesEnv (mkChatCompletion [] 0) (mkCohereChat "" 0 0 "") in
  returned (Client_Generate env (AzureClient exampleAzure)
              (BuildSimpleRequest "ping"))
  = Err (ErrNoChoices "no choices in Azure OpenAI response").
Proof.
  intros env.
  destruct (Generate_no_choices env (AzureClient exampleAzure)
              (BuildSimpleRequest "ping")
              "no choices in Azure OpenAI response" "{}" 200 "body"
              (mkChatCompletion [] 0)
              eq_refl eq_refl eq_refl eq_refl ltac:(lia) eq_refl eq_refl)
    as [Hg _].
  by rewrite Hg.
Defined.

Lemma wrap64_small (z : Z) : - 2 ^ 63 <= z < 2 ^ 63 → wrap64 z = z.
Proof. intros Hz. unfold wrap64. rewrite Z.mod_small; lia. Qed.

(** X14.  The Cohere adapter maps every reply with a status in 200..299
    that decodes to a response: the text as content (an empty text as
    well: there is no empty-result check on this path), the assistant
    role, the reply's finish reason, and as token count the sum of the
    billed input and output tokens - the plain sum whenever both counts
    are non-negative and below 2^62. *)
Theorem Cohere_Generate_maps_reply env (c : Cohere.cohereClient)
    (request : Request) (encoded : string) (status : Z) (body : string)
    (chat : CohereChat) :
  json_Marshal env (Cohere.buildPayload c request) = Done encoded →
  http_NewRequest env "POST" (BaseURL (Cohere.config c) +:+ "/chat") = None →
  http_Do env (Client_request (CohereClient c) encoded)
  = Replied status body →
  200 <= status < 300 →
  json_Unmarshal_CohereChat env body = Done chat →
  ∃ response,
    Cohere.Generate env c request
    = ([Client_request (CohereClient c) encoded], Ok response)
    ∧ resp_Content response = chat_Text chat
    ∧ resp_Role response = RoleAssistant
    ∧ resp_FinishReason response = chat_FinishReason chat
    ∧ resp_ResponseTime response = time_Since env
    ∧ (0 <= chat_InputTokens chat < 2 ^ 62 →
       0 <= chat_OutputTokens chat < 2 ^ 62 →
       resp_TokensUsed response
       = chat_InputTokens chat + chat_OutputTokens chat).
Proof.
  intros Hm Hn Hd Hs Hdec. eexists.
  unfold Cohere.Generate, post, Client_request, Client_endpoint,
    Client_headers, bearer in *.
  rewrite Hm; simpl. rewrite Hn, Hd.
  rewrite (decide_False (P := status < 200 ∨ status >= 300)) by lia.
  simpl. rewrite Hdec. simpl. split; [reflexivity |].
  repeat split. intros Hin Hout. simpl. apply wrap64_small. lia.
Qed.

Lemma Cohere_Generate_maps_reply_witness :
  let env :=
    repliesEnv (mkChatCompletion [] 0) (mkCohereChat "" 12 30 "COMPLETE") in
  ∃ response,
    returned (Cohere.Generate env exampleCohere (BuildSimpleRequest "ping"))
    = Ok response
    ∧ resp_Content response = ""
    ∧ resp_TokensUsed response = 42.
Proof.
  intros env.
  destruct (Cohere_Generate_maps_reply env exampleCohere
              (BuildSimpleRequest "ping") "{}" 200 "body"
              (mkCohereChat "" 12 30 "COMPLETE")
              eq_refl eq_refl eq_refl ltac:(lia) eq_refl)
    as (response & Hg & Hc & _ & _ & _ & Ht).
  exists response. rewrite Hg. split; [reflexivity |].
  split; [exact Hc |]. apply Ht; simpl; lia.
Defined.
